(** * Deep Research Agent (deep_research_groqai.py): a shallow embedding

    The script chains one call to a web-research service (Firecrawl) and
    two calls to a completion service (Groq) behind a Streamlit page.
    Strings are Python [str] values, that is sequences of Unicode code
    points; source records are dictionaries; the services and the page
    are modelled by an explicit event trace. *)

From Stdlib Require Import ZArith NArith QArith String Ascii List Lia DecimalString.
From stdpp Require Import gmap list.

Open Scope Z_scope.

(** ** Python strings *)

Module PyStr.

(** A [str] is a list of code points; [len] counts code points. *)
Definition str := list N.

Definition len (s : str) : Z := Z.of_nat (length s).

(** An ASCII literal of the source, read code point by code point. *)
Definition lit (s : string) : str :=
  map N_of_ascii (list_ascii_of_string s).

(** The one-character strings the literals of the script need besides
    printable ASCII: "\n", the ellipsis U+2026 and the en dash U+2013. *)
Definition nl : str := [10%N].
Definition ellipsis : str := [8230%N].
Definition en_dash : str := [8211%N].

(** [str.isspace] on one code point, as CPython's [Py_UNICODE_ISSPACE]. *)
Definition isspace (c : N) : bool :=
  ((9 <=? c) && (c <=? 13) || (28 <=? c) && (c <=? 32)
   || (c =? 133) || (c =? 160) || (c =? 5760)
   || (8192 <=? c) && (c <=? 8202)
   || (c =? 8232) || (c =? 8233) || (c =? 8239) || (c =? 8287)
   || (c =? 12288))%N.

Fixpoint lstrip (s : str) : str :=
  match s with
  | c :: s' => if isspace c then lstrip s' else s
  | [] => []
  end.

Definition rstrip (s : str) : str := reverse (lstrip (reverse s)).

(** [s.strip()] with no argument. *)
Definition strip (s : str) : str := rstrip (lstrip s).

(** [s[:n]] for a non-negative constant [n]. *)
Definition prefix_to (n : nat) (s : str) : str := take n s.

(** [sep.join(lines)]. *)
Fixpoint join (sep : str) (lines : list str) : str :=
  match lines with
  | [] => []
  | [l] => l
  | l :: rest => l ++ sep ++ join sep rest
  end.

(** [s.replace(old, new)] for one-character [old] and [new]. *)
Definition replace (old new : N) (s : str) : str :=
  map (fun c => if (c =? old)%N then new else c) s.

(** [str(i)] for an [int]. *)
Definition str_of_int (i : Z) : str :=
  lit (NilZero.string_of_int (Z.to_int i)).

End PyStr.
Export PyStr.

(** ** Python values and dictionaries *)

Module PyVal.

(** The values a field of a JSON record can hold, as far as the script
    formats or tests them: [None], a [bool], an [int] or a [str]. *)
Inductive value :=
| VNone
| VBool (b : bool)
| VInt (n : Z)
| VStr (s : str).

(** Truth value of [v] in a boolean context ([not v], [a or b]). *)
Definition truthy (v : value) : bool :=
  match v with
  | VNone => false
  | VBool b => b
  | VInt n => negb (n =? 0)
  | VStr s => negb (length s =? 0)%nat
  end.

(** [a or b]. *)
Definition py_or (a b : value) : value := if truthy a then a else b.

(** [str(v)], which is what an f-string field [{v}] renders. *)
Definition py_str (v : value) : str :=
  match v with
  | VNone => lit "None"
  | VBool true => lit "True"
  | VBool false => lit "False"
  | VInt n => str_of_int n
  | VStr s => s
  end.

(** [type(v).__name__]. *)
Definition type_name (v : value) : str :=
  match v with
  | VNone => lit "NoneType"
  | VBool _ => lit "bool"
  | VInt _ => lit "int"
  | VStr _ => lit "str"
  end.

(** A [Dict[str, Any]]. *)
Abbreviation dict := (gmap str value).

(** [d.get(k)]: [None] when the key is absent. *)
Definition get (d : dict) (k : str) : value := default VNone (d !! k).

(** [d.get(k, dflt)]: the default when the key is absent, and only then. *)
Definition get_or (d : dict) (k : str) (dflt : value) : value :=
  default dflt (d !! k).

(** Exceptions deriving from [Exception]: class name and message;
    [str(e)] is the message. *)
Record exn := Exn { exn_class : str; exn_message : str }.

Definition str_of_exn (e : exn) : str := exn_message e.

(** Result of a computation that can raise. *)
Inductive result (A : Type) :=
| Ok (a : A)
| Raise (e : exn).
Arguments Ok {A} a.
Arguments Raise {A} e.

#[global] Instance result_ret : MRet result := @Ok.
#[global] Instance result_bind : MBind result := fun A B k r =>
  match r with
  | Ok a => k a
  | Raise e => Raise e
  end.

(** [v.strip()]: defined on [str] only. *)
Definition strip_method (v : value) : result str :=
  match v with
  | VStr s => Ok (strip s)
  | _ => Raise (Exn (lit "AttributeError")
                    (lit "'" ++ type_name v ++ lit "' object has no attribute 'strip'"))
  end.

(** [l[:stop]] for any [int]: a negative [stop] counts from the end. *)
Definition slice_to {A} (l : list A) (stop : Z) : list A :=
  if 0 <=? stop then take (Z.to_nat stop) l
  else take (Z.to_nat (Z.of_nat (length l) + stop)) l.

End PyVal.
Export PyVal.

(** ** The source formatter *)

Module Formatter.

(** A source record is a dictionary. *)
Abbreviation source := (gmap str value).

(** Lines 95-97: the three fields with their fallbacks. *)
Definition source_url (s : source) : value :=
  py_or (py_or (get s (lit "url")) (get s (lit "link"))) (VStr (lit "")).

Definition source_title (s : source) : value :=
  py_or (py_or (get s (lit "title")) (get s (lit "name"))) (VStr (lit "Untitled")).

Definition source_summary_raw (s : source) : value :=
  py_or (py_or (get s (lit "summary")) (get s (lit "content"))) (VStr (lit "")).

(** Lines 99-100: the cap on the stripped summary. *)
Definition truncate (summary : str) : str :=
  if len summary >? 400 then prefix_to 400 summary ++ ellipsis else summary.

(** Lines 97-100: the summary as it is rendered. *)
Definition source_summary (s : source) : result str :=
  summary ← strip_method (source_summary_raw s);
  Ok (truncate summary).

(** Line 101: the f-string. *)
Definition entry_text (i : Z) (title url : value) (summary : str) : str :=
  str_of_int i ++ lit ". " ++ py_str title ++ nl
  ++ lit "   URL: " ++ py_str url ++ nl
  ++ lit "   Summary: " ++ summary.

(** Lines 95-101: one turn of the loop, giving the appended line. *)
Definition format_entry (i : Z) (s : source) : result str :=
  let url := source_url s in
  let title := source_title s in
  summary ← source_summary s;
  Ok (entry_text i title url summary).

(** Lines 94-101: the loop over [enumerate(_, start=i)], appending to
    [lines]. *)
Fixpoint format_loop (i : Z) (ss : list source) (lines : list str)
  : result (list str) :=
  match ss with
  | [] => Ok lines
  | s :: ss' =>
      line ← format_entry i s;
      format_loop (i + 1) ss' (lines ++ [line])
  end.

Definition no_sources : str := lit "No sources.".

Definition default_limit : Z := 12.

(** [_format_sources_for_prompt(sources, limit)]; [sources] is [None]
    when the argument is left out or null. *)
Definition _format_sources_for_prompt
    (sources : option (list source)) (limit : Z) : result str :=
  match sources with
  | None | Some [] => Ok no_sources
  | Some ss =>
      lines ← format_loop 1 (slice_to ss limit) [];
      Ok (join (nl ++ nl) lines)
  end.

End Formatter.
Export Formatter.

(** ** The page, the two services and the trace of a run *)

Module App.

(** A [temperature]: the decimal literal as a rational; the script only
    passes it on. *)
Abbreviation float := Q.

(** One entry of [messages]. *)
Record message := Message { role : str; content : str }.

(** The keyword arguments of [client.chat.completions.create]. *)
Record completion_request := CompletionRequest {
  req_model : str;
  req_temperature : float;
  req_messages : list message
}.

(** The part of a completion the script reads:
    [resp.choices[k].message.content]. *)
Record completion_message := CompletionMessage { message_content : str }.
Record choice := Choice { choice_message : completion_message }.
Record completion := Completion { choices : list choice }.

(** [params] of [app.deep_research]. *)
Record research_params := ResearchParams {
  maxDepth : Z;
  timeLimit : Z;
  maxUrls : Z
}.

(** The answer of [app.deep_research]: a dictionary whose ["data"] entry
    may be absent; when present it is a dictionary, whose
    ["finalAnalysis"] and ["sources"] entries may each be absent, or
    something else (null, say). The sources, when present, are a list or
    null ([None]). *)
Record research_data := ResearchData {
  finalAnalysis : option value;
  data_sources : option (option (list source))
}.
Inductive data_entry :=
| DataDict (d : research_data)
| DataOther (v : value).
Record research_response := ResearchResponse { data : option data_entry }.

(** What the page shows, and the two network calls. *)
Inductive event :=
| StWarning (body : str)
| StError (body : str)
| StEmpty
| StInfo (body : str)
| StSpinner (text : str)
| StSubheader (body : str)
| StExpander (label : str)
| StText (body : str)
| StMarkdown (body : str)
| StCaption (body : str)
| StDownloadButton (label data file_name mime : str)
| FirecrawlDeepResearch (api_key query : str) (params : research_params)
| GroqChatCompletion (api_key : str) (request : completion_request).

Definition is_firecrawl_call (ev : event) : bool :=
  match ev with FirecrawlDeepResearch _ _ _ => true | _ => false end.

Definition is_groq_call (ev : event) : bool :=
  match ev with GroqChatCompletion _ _ => true | _ => false end.

Definition is_network_call (ev : event) : bool :=
  is_firecrawl_call ev || is_groq_call ev.

(** The two services, as the script sees them. Each answer may depend on
    everything that happened before the call. Building the research
    client calls nothing but may raise; the research service reports
    activities through the callback and then answers or raises; the
    completion service answers or raises. *)
Record services := Services {
  firecrawl_app : list event -> str -> result unit;
  firecrawl : list event -> str -> str -> research_params
              -> list dict * result research_response;
  groq : list event -> str -> completion_request -> result completion
}.

(** The module-level names the helpers read (lines 19-43), and whether
    the start button was pressed. *)
Record session := Session {
  groq_api_key : str;
  firecrawl_api_key : str;
  model : str;
  research_topic : str;
  start_pressed : bool
}.

(** How a piece of the script ends: normally, with an exception, or in
    [st.stop()], which no [except Exception] catches. *)
Inductive outcome (A : Type) :=
| Done (a : A)
| Raised (e : exn)
| Stopped.
Arguments Done {A} a.
Arguments Raised {A} e.
Arguments Stopped {A}.

(** A piece of the script: from the trace so far to an outcome and the
    extended trace. *)
Definition io (A : Type) : Type := list event -> outcome A * list event.

#[global] Instance io_ret : MRet io := fun A a t => (Done a, t).
#[global] Instance io_bind : MBind io := fun A B k m t =>
  match m t with
  | (Done a, t') => k a t'
  | (Raised e, t') => (Raised e, t')
  | (Stopped, t') => (Stopped, t')
  end.

Definition emit (ev : event) : io unit := fun t => (Done tt, t ++ [ev]).

Definition raise {A} (e : exn) : io A := fun t => (Raised e, t).

(** [st.stop()]. *)
Definition stop {A} : io A := fun t => (Stopped, t).

Definition of_result {A} (r : result A) : io A :=
  match r with
  | Ok a => mret a
  | Raise e => raise e
  end.

(** [try: body except Exception as e: handler e]. *)
Definition try_except {A} (body : io A) (handler : exn -> io A) : io A :=
  fun t =>
    match body t with
    | (Raised e, t') => handler e t'
    | r => r
    end.

(** [for x in l: f x]. *)
Fixpoint for_each {A} (f : A -> io unit) (l : list A) : io unit :=
  match l with
  | [] => mret tt
  | x :: l' => _ ← f x; for_each f l'
  end.

Section Script.

Variable svc : services.
Variable ses : session.

(** [st.button(label, disabled=d)]: a disabled button is never pressed. *)
Definition button (disabled : bool) : io bool :=
  mret (start_pressed ses && negb disabled).

(** Lines 49-56. *)
Definition _require_keys : io bool :=
  if negb (truthy (VStr (groq_api_key ses))) then
    _ ← emit (StWarning (lit "Please provide your Groq API key in the sidebar."));
    mret false
  else if negb (truthy (VStr (firecrawl_api_key ses))) then
    _ ← emit (StWarning (lit "Please provide your Firecrawl API key in the sidebar."));
    mret false
  else mret true.

(** Lines 66-70: the callback. *)
Definition on_activity (activity : dict) : io unit :=
  let typ := get_or activity (lit "type") (VStr (lit "event")) in
  let msg := get_or activity (lit "message") (VStr (lit "...")) in
  emit (StInfo (lit "[" ++ py_str typ ++ lit "] " ++ py_str msg)).

(** Line 62: [FirecrawlApp(api_key=...)]. *)
Definition FirecrawlApp (api_key : str) : io unit :=
  fun t => of_result (firecrawl_app svc t api_key) t.

(** [app.deep_research(query, params, on_activity)]: the call, then the
    callback on each reported activity, then the answer or the
    exception. *)
Definition deep_research (api_key query : str) (params : research_params)
    (callback : dict -> io unit) : io research_response :=
  fun t =>
    let '(activities, answer) := firecrawl svc t api_key query params in
    (_ ← emit (FirecrawlDeepResearch api_key query params);
     _ ← for_each callback activities;
     of_result answer) t.

(** The dictionary [run_deep_research] returns; ["error"] is present in
    the failure case only. *)
Record research := Research {
  success : bool;
  error : option str;
  final_analysis : value;
  sources : option (list source)
}.

(** [data.get]: defined on a dictionary only. *)
Definition get_method (data : data_entry) : result research_data :=
  match data with
  | DataDict d => Ok d
  | DataOther v =>
      Raise (Exn (lit "AttributeError")
               (lit "'" ++ type_name v ++ lit "' object has no attribute 'get'"))
  end.

(** Lines 59-87. *)
Definition run_deep_research (query : str) (max_depth time_limit max_urls : Z)
  : io research :=
  try_except
    (_ ← FirecrawlApp (firecrawl_api_key ses);
     _ ← emit StEmpty;
     _ ← emit (StSpinner (lit "Performing deep research via Firecrawl..."));
     results ← deep_research (firecrawl_api_key ses) query
                 (ResearchParams max_depth time_limit max_urls) on_activity;
     let data := default (DataDict (ResearchData None None)) (data results) in
     d ← of_result (get_method data);
     mret (Research true None
             (default (VStr (lit "")) (finalAnalysis d))
             (default (Some []) (data_sources d))))
    (fun e =>
       _ ← emit (StError (lit "Deep research error: " ++ str_of_exn e));
       mret (Research false (Some (str_of_exn e)) (VStr (lit "")) (Some []))).

(** Lines 106-114: [Groq(api_key).chat.completions.create(...)]; the
    client is built right before the request, as part of it. The content
    of a choice is a [str], as the return annotation of [groq_chat] has
    it. *)
Definition chat_completions_create (api_key : str) (request : completion_request)
  : io completion :=
  fun t =>
    (_ ← emit (GroqChatCompletion api_key request);
     of_result (groq svc t api_key request)) t.

(** [l[0]]. *)
Definition first {A} (l : list A) : io A :=
  match l with
  | x :: _ => mret x
  | [] => raise (Exn (lit "IndexError") (lit "list index out of range"))
  end.

(** Lines 105-115. *)
Definition groq_chat (system user : str) (temperature : float) : io str :=
  resp ← chat_completions_create (groq_api_key ses)
           (CompletionRequest (model ses) temperature
              [Message (lit "system") system; Message (lit "user") user]);
  c ← first (choices resp);
  mret (message_content (choice_message c)).

(** Lines 140-144, 157-161: the two fixed system instructions. *)
Definition system_prompt : str :=
  lit "You are a careful research assistant. Write a concise, well-structured report "
  ++ lit "with headings, bullet points, and short paragraphs. Include citations as numbered "
  ++ lit "[n] markers mapped to the provided source list. If something is uncertain, state so.".

Definition system_prompt2 : str :=
  lit "You are an expert content enhancer. Improve clarity, add examples, brief case studies, "
  ++ lit "and practical takeaways for different stakeholders. Keep original structure but expand with useful detail. "
  ++ lit "Do not invent citations; keep the same [n] mapping.".

(** Lines 145-150. *)
Definition user_prompt (topic formatted_sources : str) : str :=
  lit "TOPIC: " ++ topic ++ nl ++ nl
  ++ lit "SOURCES:" ++ nl ++ formatted_sources ++ nl ++ nl
  ++ lit "Write a report (600" ++ en_dash
  ++ lit "1000 words) covering: key points, context/background, current developments, "
  ++ lit "risks/limitations, and a short FAQ. Use [n] citation markers that refer to the numbered sources above.".

(** Lines 162-164. *)
Definition user_prompt2 (initial_report : str) : str :=
  lit "Enhance the following report. Preserve headings and citation markers."
  ++ nl ++ nl ++ initial_report.

(** Line 172: the offered file name. *)
Definition report_file_name (topic : str) : str :=
  replace 32 95 topic ++ lit "_report.md".

(** Lines 130-174: from the research result to the download button. *)
Definition write_reports (research : research) : io unit :=
  let sources := sources research in
  formatted_sources ← of_result (_format_sources_for_prompt sources default_limit);
  _ ← emit (StSubheader (lit "Sources (from Firecrawl)"));
  _ ← emit (StExpander (lit "Show sources"));
  _ ← emit (StText formatted_sources);
  _ ← emit (StSubheader (lit "Initial Research Report"));
  _ ← emit (StSpinner (lit "Generating initial report with Groq..."));
  initial_report ← groq_chat system_prompt
                     (user_prompt (research_topic ses) formatted_sources) 0.2%Q;
  _ ← emit (StMarkdown initial_report);
  _ ← emit (StSubheader (lit "Enhanced Research Report"));
  _ ← emit (StSpinner (lit "Enhancing the report with Groq..."));
  enhanced_report ← groq_chat system_prompt2 (user_prompt2 initial_report) 0.3%Q;
  _ ← emit (StMarkdown enhanced_report);
  emit (StDownloadButton (lit "Download Enhanced Report (Markdown)")
          enhanced_report
          (report_file_name (research_topic ses))
          (lit "text/markdown")).

(** Lines 122-174: the body of [if st.button(...)]. *)
Definition start_research : io unit :=
  ok ← _require_keys;
  _ ← (if negb ok then stop else mret tt);
  research ← run_deep_research (research_topic ses) 3 180 10;
  _ ← (if negb (success research) then stop else mret tt);
  write_reports research.

(** Lines 121-177: the main flow and the footer. *)
Definition main : io unit :=
  pressed ← button (negb (truthy (VStr (research_topic ses))));
  _ ← (if (pressed : bool) then start_research else mret tt);
  _ ← emit (StMarkdown (lit "---"));
  emit (StCaption (lit "Powered by Groq + Firecrawl " ++ [183%N] ++ lit " Streamlit UI")).

End Script.

(** One run of the script: the page starts empty. *)
Definition run (svc : services) (ses : session) : outcome unit * list event :=
  main svc ses [].

End App.
Export App.

(** ** Vocabulary of the statements *)

Section Vocabulary.

Variable svc : services.
Variable ses : session.

(** A key that is missing or holds the empty string. *)
Definition absent_or_empty (s : source) (k : str) : Prop :=
  s !! k = None \/ s !! k = Some (VStr []).

(** The record's summary, after the fallbacks, is a string. *)
Definition has_str_summary (s : source) : Prop :=
  exists sm, source_summary_raw s = VStr sm.

(** What the callback shows for one activity. *)
Definition activity_info (activity : dict) : event :=
  StInfo (lit "[" ++ py_str (get_or activity (lit "type") (VStr (lit "event")))
          ++ lit "] "
          ++ py_str (get_or activity (lit "message") (VStr (lit "...")))).

(** The trace just before the research call of [run_deep_research]. *)
Definition before_research (t : list event) : list event :=
  t ++ [StEmpty; StSpinner (lit "Performing deep research via Firecrawl...")].

(** The events of the research call itself. *)
Definition research_events (query : str) (params : research_params)
    (activities : list dict) : list event :=
  FirecrawlDeepResearch (firecrawl_api_key ses) query params
  :: map activity_info activities.

(** The request [groq_chat] sends. *)
Definition chat_request (system user : str) (temperature : float)
  : completion_request :=
  CompletionRequest (model ses) temperature
    [Message (lit "system") system; Message (lit "user") user].

Definition footer : list event :=
  [StMarkdown (lit "---");
   StCaption (lit "Powered by Groq + Firecrawl " ++ [183%N] ++ lit " Streamlit UI")].

(** The run was started: the button was pressed and was not disabled. *)
Definition started : Prop :=
  start_pressed ses = true /\ research_topic ses <> [].

Definition groq_key_warning : event :=
  StWarning (lit "Please provide your Groq API key in the sidebar.").

Definition firecrawl_key_warning : event :=
  StWarning (lit "Please provide your Firecrawl API key in the sidebar.").

(** The research call of the main flow. *)
Definition main_params : research_params := ResearchParams 3 180 10.

(** The research client was built. *)
Definition client_built (t : list event) : Prop :=
  firecrawl_app svc t (firecrawl_api_key ses) = Ok tt.

(** The ["data"] entry as line 79 reads it. *)
Definition data_of (results : research_response) : data_entry :=
  default (DataDict (ResearchData None None)) (data results).

(** What lines 62-83 get from the research service for a query, started
    from the trace [t]: the activities reported, and either the answer
    or the exception that the [except] clause catches, be it of the
    constructor (nothing is then called or reported), of the call, or of
    reading a "data" entry that is no dictionary. *)
Definition research_outcome (query : str) (params : research_params)
    (t : list event) : list dict * result research_response :=
  match firecrawl_app svc t (firecrawl_api_key ses) with
  | Raise e => ([], Raise e)
  | Ok _ =>
      let '(activities, answer) :=
        firecrawl svc (before_research t) (firecrawl_api_key ses) query params in
      (activities,
       results ← answer; _ ← get_method (data_of results); Ok results)
  end.

(** The same for the research call of a run started from the trace [t]
    with both keys present. *)
Definition research_answer (t : list event)
  : list dict * result research_response :=
  research_outcome (research_topic ses) main_params t.

Definition keys_present : Prop :=
  groq_api_key ses <> [] /\ firecrawl_api_key ses <> [].

(** What the page shows between the research call and the first
    completion call, and between the two completion calls. *)
Definition draft_events (formatted_sources : str) : list event :=
  [StSubheader (lit "Sources (from Firecrawl)");
   StExpander (lit "Show sources");
   StText formatted_sources;
   StSubheader (lit "Initial Research Report");
   StSpinner (lit "Generating initial report with Groq...")].

Definition enhance_events (initial_report : str) : list event :=
  [StMarkdown initial_report;
   StSubheader (lit "Enhanced Research Report");
   StSpinner (lit "Enhancing the report with Groq...")].

Definition draft_call (formatted_sources : str) : event :=
  GroqChatCompletion (groq_api_key ses)
    (chat_request system_prompt
       (user_prompt (research_topic ses) formatted_sources) 0.2%Q).

Definition enhance_call (initial_report : str) : event :=
  GroqChatCompletion (groq_api_key ses)
    (chat_request system_prompt2 (user_prompt2 initial_report) 0.3%Q).

Definition download_button (enhanced_report : str) : event :=
  StDownloadButton (lit "Download Enhanced Report (Markdown)") enhanced_report
    (report_file_name (research_topic ses)) (lit "text/markdown").

Definition is_download (ev : event) : bool :=
  match ev with StDownloadButton _ _ _ _ => true | _ => false end.

End Vocabulary.

(** ** Sample services and sessions *)

Module Samples.

Definition a_source : source :=
  {[ lit "title" := VStr (lit "Paper");
     lit "url" := VStr (lit "https://example.org/p");
     lit "summary" := VStr (lit " A summary. ") ]}.

Definition an_activity : dict :=
  {[ lit "type" := VStr (lit "search"); lit "message" := VStr (lit "Searching") ]}.

(** A completion service that answers "draft" to the first request of a
    run and "final" to the later ones. *)
Definition completes (h : list event) (api_key : str)
    (request : completion_request) : result completion :=
  Ok (Completion
        [Choice (CompletionMessage
                   (if existsb is_groq_call h then lit "final" else lit "draft"))]).

(** Both services answer. *)
Definition answering : services :=
  Services
    (fun _ _ => Ok tt)
    (fun _ _ _ _ =>
       ([an_activity],
        Ok (ResearchResponse
              (Some (DataDict (ResearchData (Some (VStr (lit "Analysis")))
                                 (Some (Some [a_source]))))))))
    completes.

(** The research service raises. *)
Definition failing : services :=
  Services
    (fun _ _ => Ok tt)
    (fun _ _ _ _ =>
       ([an_activity], Raise (Exn (lit "Exception") (lit "Request timed out"))))
    completes.

Definition ready : session :=
  Session (lit "gsk") (lit "fc") (lit "llama-3.1-8b-instant")
    (lit "AI safety news") true.

Definition without_groq_key : session :=
  Session [] (lit "fc") (lit "llama-3.1-8b-instant") (lit "AI safety news") true.

Definition without_firecrawl_key : session :=
  Session (lit "gsk") [] (lit "llama-3.1-8b-instant") (lit "AI safety news") true.

End Samples.
Import Samples.

(** ** Shapes of a run *)

Section RunShapes.

Variable svc : services.
Variable ses : session.

(** The calls to the two services, in the order they were made. *)
Definition network_calls (t : list event) : list event :=
  List.filter is_network_call t.

Definition is_caption (ev : event) : bool :=
  match ev with StCaption _ => true | _ => false end.

(** Line 83 read through line 79: the sources of an answer whose "data"
    entry is a dictionary or absent, as the formatter takes them (null
    sources give the sentinel, as the empty list does). *)
Definition fetched_sources (results : research_response) : list source :=
  match get_method (data_of results) with
  | Ok d => default [] (default (Some []) (data_sources d))
  | Raise _ => []
  end.

(** Line 82 read through line 79: the final analysis of such an answer. *)
Definition fetched_analysis (results : research_response) : value :=
  match get_method (data_of results) with
  | Ok d => default (VStr []) (finalAnalysis d)
  | Raise _ => VStr []
  end.

(** The research call of a run. *)
Definition research_call : event :=
  FirecrawlDeepResearch (firecrawl_api_key ses) (research_topic ses) main_params.

(** The trace of a run once the research call has answered. *)
Definition researched (activities : list dict) : list event :=
  before_research []
  ++ research_events ses (research_topic ses) main_params activities.

(** The trace of a run just before, and just after, the Draft call's
    answer is shown. *)
Definition drafting (activities : list dict) (formatted_sources : str)
  : list event :=
  researched activities ++ draft_events formatted_sources.

Definition drafted (activities : list dict) (formatted_sources initial_report : str)
  : list event :=
  drafting activities formatted_sources
  ++ draft_call ses formatted_sources :: enhance_events initial_report.

(** How the two calls of [groq_chat] of a run end. *)
Definition draft_reply (activities : list dict) (formatted_sources : str)
  : outcome str :=
  fst (groq_chat svc ses system_prompt
         (user_prompt (research_topic ses) formatted_sources) 0.2%Q
         (drafting activities formatted_sources)).

Definition enhance_reply (activities : list dict)
    (formatted_sources initial_report : str) : outcome str :=
  fst (groq_chat svc ses system_prompt2 (user_prompt2 initial_report) 0.3%Q
         (drafted activities formatted_sources initial_report)).

(** The nine ways a run can go, each with its outcome and its trace. *)
Inductive run_shape : outcome unit -> list event -> Prop :=
| run_idle :
    ~ started ses ->
    run_shape (Done tt) footer
| run_no_groq_key :
    started ses -> groq_api_key ses = [] ->
    run_shape Stopped [groq_key_warning]
| run_no_firecrawl_key :
    started ses -> groq_api_key ses <> [] -> firecrawl_api_key ses = [] ->
    run_shape Stopped [firecrawl_key_warning]
| run_client_failed e :
    started ses -> keys_present ses ->
    firecrawl_app svc [] (firecrawl_api_key ses) = Raise e ->
    run_shape Stopped [StError (lit "Deep research error: " ++ str_of_exn e)]
| run_research_failed activities e :
    started ses -> keys_present ses ->
    client_built svc ses [] ->
    research_answer svc ses [] = (activities, Raise e) ->
    run_shape Stopped
      (researched activities
       ++ [StError (lit "Deep research error: " ++ str_of_exn e)])
| run_format_failed activities results e :
    started ses -> keys_present ses ->
    research_answer svc ses [] = (activities, Ok results) ->
    _format_sources_for_prompt (Some (fetched_sources results)) default_limit
      = Raise e ->
    run_shape (Raised e) (researched activities)
| run_draft_failed activities results fs e :
    started ses -> keys_present ses ->
    research_answer svc ses [] = (activities, Ok results) ->
    _format_sources_for_prompt (Some (fetched_sources results)) default_limit
      = Ok fs ->
    draft_reply activities fs = Raised e ->
    run_shape (Raised e) (drafting activities fs ++ [draft_call ses fs])
| run_enhance_failed activities results fs initial e :
    started ses -> keys_present ses ->
    research_answer svc ses [] = (activities, Ok results) ->
    _format_sources_for_prompt (Some (fetched_sources results)) default_limit
      = Ok fs ->
    draft_reply activities fs = Done initial ->
    enhance_reply activities fs initial = Raised e ->
    run_shape (Raised e)
      (drafted activities fs initial ++ [enhance_call ses initial])
| run_completed activities results fs initial enhanced :
    started ses -> keys_present ses ->
    research_answer svc ses [] = (activities, Ok results) ->
    _format_sources_for_prompt (Some (fetched_sources results)) default_limit
      = Ok fs ->
    draft_reply activities fs = Done initial ->
    enhance_reply activities fs initial = Done enhanced ->
    run_shape (Done tt)
      (drafted activities fs initial
       ++ [enhance_call ses initial; StMarkdown enhanced;
           download_button ses enhanced]
       ++ footer).

End RunShapes.

(** ** More sample services and records *)

Module MoreSamples.

(** A record whose summary is a number. *)
Definition a_numbered_source : source :=
  {[ lit "title" := VStr (lit "Table"); lit "summary" := VInt 7 ]}.

(** A record that names its fields the other way. *)
Definition an_aliased_source : source :=
  {[ lit "name" := VStr (lit "Blog"); lit "link" := VStr (lit "https://example.org/b");
     lit "title" := VStr []; lit "content" := VStr (lit "Text") ]}.

(** A record whose summary is blank and whose content is not. *)
Definition a_blank_source : source :=
  {[ lit "summary" := VStr (lit "   "); lit "content" := VStr (lit "Text") ]}.

Definition research_ok (sources : option (list source))
  : list event -> str -> str -> research_params
    -> list dict * result research_response :=
  fun _ _ _ _ =>
    ([an_activity],
     Ok (ResearchResponse
           (Some (DataDict (ResearchData None (Some <$> sources)))))).

(** The research service answers with one record of a numeric summary. *)
Definition answering_numbers : services :=
  Services (fun _ _ => Ok tt) (research_ok (Some [a_numbered_source])) completes.


(** The completion service raises on every call. *)
Definition refusing : services :=
  Services (fun _ _ => Ok tt) (research_ok (Some [a_source]))
    (fun _ _ _ => Raise (Exn (lit "RateLimitError") (lit "rate limited"))).

(** The completion service answers without a choice. *)
Definition speechless : services :=
  Services (fun _ _ => Ok tt) (research_ok (Some [a_source])) (fun _ _ _ => Ok (Completion [])).

(** The completion service answers the first request of a run and
    raises on the later ones. *)
Definition tiring : services :=
  Services (fun _ _ => Ok tt) (research_ok (Some [a_source]))
    (fun h _ _ =>
       if existsb is_groq_call h
       then Raise (Exn (lit "APIConnectionError") (lit "Connection error."))
       else Ok (Completion [Choice (CompletionMessage (lit "draft"))])).

(** The research client cannot be built. *)
Definition clientless : services :=
  Services
    (fun _ _ => Raise (Exn (lit "ValueError") (lit "No API key provided")))
    (research_ok (Some [a_source])) completes.

(** The research service answers with a null "data" entry. *)
Definition answering_null : services :=
  Services (fun _ _ => Ok tt)
    (fun _ _ _ _ => ([an_activity], Ok (ResearchResponse (Some (DataOther VNone)))))
    completes.

Definition unpressed : session :=
  Session (lit "gsk") (lit "fc") (lit "llama-3.1-8b-instant")
    (lit "AI safety news") false.

Definition without_keys : session :=
  Session [] [] (lit "llama-3.1-8b-instant") (lit "AI safety news") true.

End MoreSamples.
Import MoreSamples.

(** * Properties *)

(** ** Stripping and truncation *)

Section StripFacts.

Lemma lstrip_suffix (s : str) : lstrip s `suffix_of` s.
Proof.
  induction s as [|c s IH]; simpl; [done|].
  destruct (isspace c); [|done].
  by apply suffix_cons_r.
Qed.

Lemma lstrip_head (s : str) (c : N) :
  head (lstrip s) = Some c -> isspace c = false.
Proof.
  induction s as [|d s IH]; simpl; [done|].
  destruct (isspace d) eqn:Hd; [done|].
  simpl. intros [= <-]. done.
Qed.

Lemma rstrip_prefix (s : str) : rstrip s `prefix_of` s.
Proof.
  unfold rstrip.
  destruct (lstrip_suffix (reverse s)) as [k Hk].
  exists (reverse k).
  rewrite <- reverse_app, <- Hk. by rewrite reverse_involutive.
Qed.

Lemma rstrip_last (s : str) (c : N) :
  last (rstrip s) = Some c -> isspace c = false.
Proof.
  unfold rstrip. rewrite last_reverse.
  apply lstrip_head.
Qed.

Lemma strip_prefix_lstrip (s : str) : strip s `prefix_of` lstrip s.
Proof. apply rstrip_prefix. Qed.

Lemma strip_head (s : str) (c : N) :
  head (strip s) = Some c -> isspace c = false.
Proof.
  intros Hc. apply (lstrip_head s).
  destruct (strip_prefix_lstrip s) as [k Hk].
  rewrite Hk. destruct (strip s); [done|]. done.
Qed.

Lemma strip_last (s : str) (c : N) :
  last (strip s) = Some c -> isspace c = false.
Proof. apply rstrip_last. Qed.

Lemma strip_length (s : str) : (length (strip s) <= length s)%nat.
Proof.
  destruct (strip_prefix_lstrip s) as [k Hk].
  destruct (lstrip_suffix s) as [k' Hk'].
  rewrite Hk' at 2. rewrite Hk, !length_app. lia.
Qed.

Lemma truncate_long (summary : str) :
  len summary > 400 ->
  truncate summary = take 400 summary ++ ellipsis
  /\ len (truncate summary) = 401.
Proof.
  unfold truncate, len, prefix_to, ellipsis. intros H.
  destruct (Z.gtb_spec (Z.of_nat (length summary)) 400) as [_|]; [|lia].
  split; [done|].
  rewrite length_app, length_take.
  change (length [8230%N]) with 1%nat. lia.
Qed.

Lemma truncate_short (summary : str) :
  len summary <= 400 -> truncate summary = summary.
Proof.
  unfold truncate, len. intros H.
  destruct (Z.gtb_spec (Z.of_nat (length summary)) 400); [lia|done].
Qed.

End StripFacts.

(** ** Field fallbacks *)

Section Fields.

Lemma absent_or_empty_falsy (s : source) (k : str) :
  absent_or_empty s k -> truthy (get s k) = false.
Proof. unfold get. by intros [-> | ->]. Qed.

Lemma py_or_falsy (a b : value) : truthy a = false -> py_or a b = b.
Proof. unfold py_or. by intros ->. Qed.

Lemma py_or_truthy (a b : value) : truthy a = true -> py_or a b = a.
Proof. unfold py_or. by intros ->. Qed.

Lemma get_nonempty_truthy (s : source) (k v : str) :
  s !! k = Some (VStr v) -> v <> [] ->
  get s k = VStr v /\ truthy (get s k) = true.
Proof.
  unfold get. intros -> Hv. split; [done|]. simpl. by destruct v.
Qed.

(** The first key of a pair wins when it holds a non-empty string; the
    second is read only when the first is falsy. *)
Lemma first_key_chosen (s : source) (k1 k2 v : str) (dflt : value) :
  s !! k1 = Some (VStr v) -> v <> [] ->
  py_or (py_or (get s k1) (get s k2)) dflt = VStr v.
Proof.
  intros Hk Hv. destruct (get_nonempty_truthy s k1 v Hk Hv) as [Hg Ht].
  rewrite (py_or_truthy (get s k1)) by done.
  rewrite py_or_truthy by done. done.
Qed.

Lemma second_key_chosen (s : source) (k1 k2 v : str) (dflt : value) :
  truthy (get s k1) = false -> s !! k2 = Some (VStr v) -> v <> [] ->
  py_or (py_or (get s k1) (get s k2)) dflt = VStr v.
Proof.
  intros H1 Hk Hv. destruct (get_nonempty_truthy s k2 v Hk Hv) as [Hg Ht].
  rewrite (py_or_falsy (get s k1)) by done.
  rewrite py_or_truthy by done. done.
Qed.

Lemma both_falsy_default (s : source) (k1 k2 : str) (dflt : value) :
  truthy (get s k1) = false -> truthy (get s k2) = false ->
  py_or (py_or (get s k1) (get s k2)) dflt = dflt.
Proof.
  intros H1 H2. rewrite (py_or_falsy (get s k1)) by done.
  by rewrite py_or_falsy.
Qed.

(** The summary is rendered from the stripped text of the chosen field. *)
Lemma source_summary_of_raw (s : source) (sm : str) :
  source_summary_raw s = VStr sm ->
  source_summary s = Ok (truncate (strip sm)).
Proof. unfold source_summary. by intros ->. Qed.

End Fields.

(** C9. The fallbacks fire on falsiness: when both keys of a pair are
    missing or hold the empty string, the title is "Untitled", the URL
    is the empty string and the rendered summary is the empty string;
    and in each pair the first key, when it holds a non-empty string,
    is the one used. *)
Theorem field_fallbacks (s : source) :
  (absent_or_empty s (lit "title") -> absent_or_empty s (lit "name") ->
   source_title s = VStr (lit "Untitled"))
  /\ (absent_or_empty s (lit "url") -> absent_or_empty s (lit "link") ->
      source_url s = VStr [])
  /\ (absent_or_empty s (lit "summary") -> absent_or_empty s (lit "content") ->
      source_summary s = Ok [])
  /\ (forall v, s !! lit "title" = Some (VStr v) -> v <> [] ->
      source_title s = VStr v)
  /\ (forall v, s !! lit "url" = Some (VStr v) -> v <> [] ->
      source_url s = VStr v)
  /\ (forall v, s !! lit "summary" = Some (VStr v) -> v <> [] ->
      source_summary s = Ok (truncate (strip v))).
Proof.
  unfold source_title, source_url.
  repeat split.
  - intros H1 H2. by apply both_falsy_default; apply absent_or_empty_falsy.
  - intros H1 H2. by apply both_falsy_default; apply absent_or_empty_falsy.
  - intros H1 H2. apply (source_summary_of_raw s []).
    by apply both_falsy_default; apply absent_or_empty_falsy.
  - intros v Hk Hv. by apply first_key_chosen.
  - intros v Hk Hv. by apply first_key_chosen.
  - intros v Hk Hv. apply source_summary_of_raw. by apply first_key_chosen.
Qed.

Lemma field_fallbacks_witness :
  let s : source :=
    {[ lit "name" := VStr (lit "N"); lit "title" := VStr [];
       lit "url" := VStr (lit "u"); lit "link" := VStr (lit "l") ]} in
  source_summary s = Ok [] /\ source_url s = VStr (lit "u").
Proof.
  intros s.
  destruct (field_fallbacks s) as (_ & _ & Hsum & _ & Hurl & _).
  split.
  - apply Hsum; left; reflexivity.
  - apply Hurl; [reflexivity | discriminate].
Defined.

(** ** The 400-character cap *)

(** C1, as amended. The cap applies to the stripped summary: when the
    summary, once leading and trailing whitespace is removed, is longer
    than 400 characters, the rendered summary is exactly 401 characters
    long, namely the first 400 characters of the stripped summary
    followed by the ellipsis. *)
Theorem long_summary_truncated (s : source) (sm : str) :
  s !! lit "summary" = Some (VStr sm) ->
  len (strip sm) > 400 ->
  exists rendered,
    source_summary s = Ok rendered
    /\ len rendered = 401
    /\ rendered = take 400 (strip sm) ++ ellipsis
    /\ take 400 (strip sm) `prefix_of` strip sm.
Proof.
  intros Hk Hlen.
  assert (Hne : sm <> []).
  { intros ->. unfold len in Hlen. simpl in Hlen. lia. }
  destruct (truncate_long (strip sm) Hlen) as [Htr Hl].
  exists (truncate (strip sm)). repeat split.
  - apply source_summary_of_raw. by apply first_key_chosen.
  - done.
  - done.
  - apply prefix_take.
Qed.

Lemma long_summary_truncated_witness :
  let sm := lit " " ++ replicate 401 97%N in
  let s : source := {[ lit "summary" := VStr sm ]} in
  exists rendered,
    source_summary s = Ok rendered
    /\ len rendered = 401
    /\ rendered = take 400 (strip sm) ++ ellipsis
    /\ take 400 (strip sm) `prefix_of` strip sm.
Proof.
  intros sm s. apply (long_summary_truncated s sm).
  - reflexivity.
  - vm_compute. reflexivity.
Defined.

(** C1 as stated fails: a summary of 401 characters that starts with a
    space is rendered as its 400 stripped characters, with no ellipsis,
    and the rendering is no prefix of the original. *)
Lemma long_summary_counterexample :
  let sm := lit " " ++ replicate 400 97%N in
  let s : source := {[ lit "summary" := VStr sm ]} in
  len sm = 401
  /\ source_summary s = Ok (replicate 400 97%N)
  /\ len (replicate 400 97%N) <> 401
  /\ ~ replicate 400 97%N `prefix_of` sm.
Proof.
  intros sm s. repeat split.
  - vm_compute. discriminate.
  - intros [k Hk]. vm_compute in Hk. discriminate.
Qed.

(** C8, as amended. The summary is stripped before the length check.
    The rendered summary, leaving the appended ellipsis aside, never
    begins with whitespace; when the stripped summary has at most 400
    characters it is rendered in full, without ellipsis, and does not
    end with whitespace either, whatever the length of the original. *)
Theorem summary_stripped_first (s : source) (sm : str) :
  source_summary_raw s = VStr sm ->
  exists body,
    source_summary s
      = Ok (if len (strip sm) >? 400 then body ++ ellipsis else body)
    /\ body `prefix_of` strip sm
    /\ (forall c, head body = Some c -> isspace c = false)
    /\ (len (strip sm) <= 400 ->
        body = strip sm /\ forall c, last body = Some c -> isspace c = false).
Proof.
  intros Hraw. rewrite (source_summary_of_raw s sm Hraw).
  unfold truncate, prefix_to.
  destruct (Z.gtb_spec (len (strip sm)) 400) as [Hlong|Hshort].
  - exists (take 400 (strip sm)). repeat split.
    + apply prefix_take.
    + intros c Hc. apply (strip_head sm).
      destruct (strip sm); [done|]. done.
    + lia.
    + lia.
  - exists (strip sm). repeat split.
    + done.
    + apply strip_head.
    + intros c Hc. by apply (strip_last sm).
Qed.

Lemma summary_stripped_first_witness :
  let sm := lit "  " ++ replicate 400 97%N ++ lit "  " in
  let s : source := {[ lit "content" := VStr sm ]} in
  len sm = 404 /\
  exists body,
    source_summary s
      = Ok (if len (strip sm) >? 400 then body ++ ellipsis else body)
    /\ body `prefix_of` strip sm
    /\ (forall c, head body = Some c -> isspace c = false)
    /\ (len (strip sm) <= 400 ->
        body = strip sm /\ forall c, last body = Some c -> isspace c = false).
Proof.
  intros sm s. split; [reflexivity|].
  apply (summary_stripped_first s sm). reflexivity.
Defined.

(** C8 as stated fails on the end of a truncated summary: the 400
    characters kept may end with a space. *)
Lemma summary_stripped_counterexample :
  let sm := replicate 399 97%N ++ lit " b" in
  let s : source := {[ lit "summary" := VStr sm ]} in
  let body := replicate 399 97%N ++ lit " " in
  source_summary s = Ok (body ++ ellipsis)
  /\ last body = Some 32%N
  /\ isspace 32 = true.
Proof. intros sm s body. repeat split; vm_compute; reflexivity. Qed.

(** ** The digest *)

Section Digest.

Lemma format_entry_ok (i : Z) (s : source) :
  has_str_summary s ->
  exists summary,
    source_summary s = Ok summary
    /\ format_entry i s
       = Ok (entry_text i (source_title s) (source_url s) summary).
Proof.
  intros [sm Hsm]. exists (truncate (strip sm)).
  unfold format_entry. rewrite (source_summary_of_raw s sm Hsm). done.
Qed.

(** The loop appends one line per record, numbered upwards from [i]. *)
Lemma format_loop_ok (ss : list source) :
  forall (i : Z) (acc : list str),
  (forall k s, ss !! k = Some s -> has_str_summary s) ->
  exists lines,
    format_loop i ss acc = Ok (acc ++ lines)
    /\ length lines = length ss
    /\ forall k s, ss !! k = Some s ->
       exists summary,
         source_summary s = Ok summary
         /\ lines !! k
            = Some (entry_text (i + Z.of_nat k) (source_title s) (source_url s)
                      summary).
Proof.
  induction ss as [|s ss IH]; intros i acc Hty.
  - exists []. simpl. rewrite app_nil_r. repeat split. intros k s [=].
  - destruct (format_entry_ok i s (Hty 0%nat s eq_refl)) as (summary & Hsum & Hent).
    destruct (IH (i + 1) (acc ++ [entry_text i (source_title s) (source_url s) summary]))
      as (lines & Hloop & Hlen & Hlines).
    { intros k s' Hk. by apply (Hty (S k)). }
    exists (entry_text i (source_title s) (source_url s) summary :: lines).
    simpl. rewrite Hent. simpl. rewrite Hloop, <- app_assoc. simpl.
    repeat split.
    + by rewrite Hlen.
    + intros [|k] s' Hk; simpl in Hk.
      * injection Hk as <-. exists summary. split; [done|].
        simpl. by rewrite Z.add_0_r.
      * destruct (Hlines k s' Hk) as (sum' & Hs' & Hl').
        exists sum'. split; [done|]. simpl. rewrite Hl'.
        do 2 f_equal. lia.
Qed.

Lemma slice_to_default (A : Type) (l : list A) :
  slice_to l default_limit = take 12 l.
Proof. reflexivity. Qed.

End Digest.

Section DigestText.

(** [join] with the blank-line separator, written out: the first line,
    then each other line after two newline characters. *)
Lemma join_blank_lines (lines : list str) :
  join (nl ++ nl) lines
  = match lines with
    | [] => []
    | first :: rest =>
        first ++ concat (map (fun line => [10%N; 10%N] ++ line) rest)
    end.
Proof.
  destruct lines as [|first rest]; [done|].
  revert first. induction rest as [|l rest IH]; intros first.
  - simpl. by rewrite app_nil_r.
  - change (join (nl ++ nl) (first :: l :: rest))
      with (first ++ (nl ++ nl) ++ join (nl ++ nl) (l :: rest)).
    rewrite IH. simpl. by rewrite <- ?app_assoc.
Qed.

(** The first 12 lines of a longer list, as the loop builds them. *)
Lemma format_first_12 (ss : list source) :
  (length ss > 12)%nat ->
  (forall k s, (k < 12)%nat -> ss !! k = Some s -> has_str_summary s) ->
  exists lines,
    _format_sources_for_prompt (Some ss) default_limit
      = Ok (join (nl ++ nl) lines)
    /\ length lines = 12%nat
    /\ forall k, (k < 12)%nat ->
       exists s summary,
         ss !! k = Some s
         /\ source_summary s = Ok summary
         /\ lines !! k
            = Some (entry_text (Z.of_nat k + 1) (source_title s) (source_url s)
                      summary).
Proof.
  intros Hlen Hty.
  destruct (format_loop_ok (take 12 ss) 1 []) as (lines & Hloop & Hl & Hlines).
  { intros k s Hk. apply lookup_take_Some in Hk as [Hk Hlt]. by apply (Hty k). }
  exists lines. repeat split.
  - destruct ss as [|s0 ss']; [simpl in Hlen; lia|].
    unfold _format_sources_for_prompt. rewrite slice_to_default, Hloop. done.
  - rewrite Hl, length_take. lia.
  - intros k Hk.
    destruct (lookup_lt_is_Some_2 ss k) as [s Hs]; [lia|].
    assert (Ht : take 12 ss !! k = Some s) by (by rewrite lookup_take_lt).
    destruct (Hlines k s Ht) as (summary & Hsum & Hline).
    exists s, summary. repeat split; [done|done|].
    rewrite Hline. do 2 f_equal. lia.
Qed.

End DigestText.

(** C3. A list of more than 12 source records, each of the first 12
    holding a string summary, is formatted as exactly 12 entries, the
    digest being the first entry followed by each of the 11 others after
    a blank line (two newline characters). Entry [k] (counting from 0)
    renders record [k] of the list: the number [k + 1], a dot, a space
    and the title; on the next line "   URL: " and the URL; on the next
    "   Summary: " and the rendered summary. *)
Theorem digest_capped_at_12 (ss : list source) :
  (length ss > 12)%nat ->
  (forall k s, (k < 12)%nat -> ss !! k = Some s -> has_str_summary s) ->
  exists first rest,
    _format_sources_for_prompt (Some ss) default_limit
      = Ok (first ++ concat (map (fun entry => [10%N; 10%N] ++ entry) rest))
    /\ length (first :: rest) = 12%nat
    /\ forall k, (k < 12)%nat ->
       exists s summary,
         ss !! k = Some s
         /\ source_summary s = Ok summary
         /\ (first :: rest) !! k
            = Some (str_of_int (Z.of_nat k + 1) ++ lit ". "
                    ++ py_str (source_title s) ++ [10%N]
                    ++ lit "   URL: " ++ py_str (source_url s) ++ [10%N]
                    ++ lit "   Summary: " ++ summary).
Proof.
  intros Hlen Hty.
  destruct (format_first_12 ss Hlen Hty) as (lines & Hfmt & Hl & Hlines).
  rewrite join_blank_lines in Hfmt.
  destruct lines as [|first rest]; [simpl in Hl; lia|].
  exists first, rest. repeat split; [done|done|].
  intros k Hk. destruct (Hlines k Hk) as (s & summary & Hs & Hsum & Hline).
  by exists s, summary.
Qed.

Lemma digest_capped_at_12_witness :
  let record (c : N) : source :=
    {[ lit "title" := VStr [c]; lit "url" := VStr (lit "u");
       lit "summary" := VStr (lit " s ") ]} in
  let ss := map record (lit "ABCDEFGHIJKLM") in
  (exists first rest,
    _format_sources_for_prompt (Some ss) default_limit
      = Ok (first ++ concat (map (fun entry => [10%N; 10%N] ++ entry) rest))
    /\ length (first :: rest) = 12%nat
    /\ forall k, (k < 12)%nat ->
       exists s summary,
         ss !! k = Some s
         /\ source_summary s = Ok summary
         /\ (first :: rest) !! k
            = Some (str_of_int (Z.of_nat k + 1) ++ lit ". "
                    ++ py_str (source_title s) ++ [10%N]
                    ++ lit "   URL: " ++ py_str (source_url s) ++ [10%N]
                    ++ lit "   Summary: " ++ summary))
  /\ _format_sources_for_prompt (Some ss) default_limit
     = Ok (lit "1. A" ++ [10%N] ++ lit "   URL: u" ++ [10%N]
          ++ lit "   Summary: s"
          ++ [10%N; 10%N] ++ lit "2. B" ++ [10%N] ++ lit "   URL: u" ++ [10%N]
          ++ lit "   Summary: s"
          ++ [10%N; 10%N] ++ lit "3. C" ++ [10%N] ++ lit "   URL: u" ++ [10%N]
          ++ lit "   Summary: s"
          ++ [10%N; 10%N] ++ lit "4. D" ++ [10%N] ++ lit "   URL: u" ++ [10%N]
          ++ lit "   Summary: s"
          ++ [10%N; 10%N] ++ lit "5. E" ++ [10%N] ++ lit "   URL: u" ++ [10%N]
          ++ lit "   Summary: s"
          ++ [10%N; 10%N] ++ lit "6. F" ++ [10%N] ++ lit "   URL: u" ++ [10%N]
          ++ lit "   Summary: s"
          ++ [10%N; 10%N] ++ lit "7. G" ++ [10%N] ++ lit "   URL: u" ++ [10%N]
          ++ lit "   Summary: s"
          ++ [10%N; 10%N] ++ lit "8. H" ++ [10%N] ++ lit "   URL: u" ++ [10%N]
          ++ lit "   Summary: s"
          ++ [10%N; 10%N] ++ lit "9. I" ++ [10%N] ++ lit "   URL: u" ++ [10%N]
          ++ lit "   Summary: s"
          ++ [10%N; 10%N] ++ lit "10. J" ++ [10%N] ++ lit "   URL: u" ++ [10%N]
          ++ lit "   Summary: s"
          ++ [10%N; 10%N] ++ lit "11. K" ++ [10%N] ++ lit "   URL: u" ++ [10%N]
          ++ lit "   Summary: s"
          ++ [10%N; 10%N] ++ lit "12. L" ++ [10%N] ++ lit "   URL: u" ++ [10%N]
          ++ lit "   Summary: s").
Proof.
  intros record ss. split; [|vm_compute; reflexivity].
  apply (digest_capped_at_12 ss).
  - simpl. lia.
  - intros k s' Hk Hs. exists (lit " s ").
    do 12 (destruct k as [|k]; [by injection Hs as <-|]). lia.
Defined.

(** C7. The empty list gives the sentinel, whatever the limit; so does
    a missing list. *)
Theorem empty_list_sentinel (limit : Z) :
  _format_sources_for_prompt (Some []) limit = Ok (lit "No sources.")
  /\ _format_sources_for_prompt None limit = Ok (lit "No sources.").
Proof. split; reflexivity. Qed.

(** C10, as amended. On a non-empty list, limit 0, or a negative limit
    that reaches back at least to the front of the list, gives the empty
    string and not the sentinel: the slice is empty and the sentinel
    test has already passed. *)
Theorem empty_slice_empty_digest (ss : list source) (limit : Z) :
  ss <> [] ->
  limit = 0 \/ limit <= - Z.of_nat (length ss) ->
  _format_sources_for_prompt (Some ss) limit = Ok []
  /\ @Ok str [] <> Ok no_sources.
Proof.
  intros Hne Hlim. split; [|discriminate].
  destruct ss as [|s ss']; [done|].
  unfold _format_sources_for_prompt.
  assert (Hs : slice_to (s :: ss') limit = []).
  { unfold slice_to. destruct (Z.leb_spec 0 limit) as [Hpos|Hneg].
    - destruct Hlim as [->|Hlim]; [done|]. simpl length in Hlim. lia.
    - destruct Hlim as [->|Hlim]; [lia|].
      replace (Z.to_nat (Z.of_nat (length (s :: ss')) + limit)) with 0%nat by lia.
      done. }
  rewrite Hs. reflexivity.
Qed.

Lemma empty_slice_empty_digest_witness :
  let s : source := {[ lit "title" := VStr (lit "T") ]} in
  _format_sources_for_prompt (Some [s; s]) (-2) = Ok []
  /\ @Ok str [] <> Ok no_sources.
Proof.
  intros s. apply (empty_slice_empty_digest [s; s] (-2)).
  - discriminate.
  - right. simpl. lia.
Defined.

(** C10 as stated fails for a negative limit that stops short of the
    front: with two records and limit -1 the first record is rendered. *)
Lemma negative_limit_counterexample :
  let s : source := {[ lit "title" := VStr (lit "T") ]} in
  -1 <= 0
  /\ _format_sources_for_prompt (Some [s; s]) (-1)
     = Ok (lit "1. T" ++ nl ++ lit "   URL: " ++ nl ++ lit "   Summary: ")
  /\ _format_sources_for_prompt (Some [s; s]) (-1) <> Ok [].
Proof.
  intros s. split; [lia|]. split; [vm_compute; reflexivity|].
  vm_compute. discriminate.
Qed.

(** ** The services and the page *)

Section Steps.

Variable svc : services.
Variable ses : session.

Lemma bind_emit {B} (ev : event) (k : unit -> io B) (t : list event) :
  (emit ev ≫= k) t = k tt (t ++ [ev]).
Proof. reflexivity. Qed.

Lemma bind_ret {A B} (a : A) (k : A -> io B) (t : list event) :
  (mret a ≫= k) t = k a t.
Proof. reflexivity. Qed.

Lemma for_each_on_activity (activities : list dict) (t : list event) :
  for_each on_activity activities t
  = (Done tt, t ++ map activity_info activities).
Proof.
  revert t. induction activities as [|a l IH]; intros t; simpl.
  - by rewrite app_nil_r.
  - change (for_each on_activity l (t ++ [activity_info a])
            = (Done tt, t ++ activity_info a :: map activity_info l)).
    rewrite IH, <- app_assoc. done.
Qed.

Lemma deep_research_run (query : str) (params : research_params)
    (t : list event) (activities : list dict) (answer : result research_response) :
  firecrawl svc t (firecrawl_api_key ses) query params = (activities, answer) ->
  deep_research svc (firecrawl_api_key ses) query params on_activity t
  = (match answer with Ok r => Done r | Raise e => Raised e end,
     t ++ research_events ses query params activities).
Proof.
  intros Hsvc. unfold deep_research. rewrite Hsvc, bind_emit.
  unfold mbind at 1, io_bind at 1. rewrite for_each_on_activity.
  rewrite <- app_assoc. by destruct answer.
Qed.

(** The record returned on failure. *)
Lemma run_deep_research_client_failed (query : str) (d tl mu : Z)
    (t : list event) (e : exn) :
  firecrawl_app svc t (firecrawl_api_key ses) = Raise e ->
  run_deep_research svc ses query d tl mu t
  = (Done (Research false (Some (str_of_exn e)) (VStr []) (Some [])),
     t ++ [StError (lit "Deep research error: " ++ str_of_exn e)]).
Proof.
  intros Hc. unfold run_deep_research, try_except, FirecrawlApp.
  unfold mbind at 1, io_bind at 1. rewrite Hc. reflexivity.
Qed.

Lemma run_deep_research_called (query : str) (d tl mu : Z) (t : list event)
    (activities : list dict) (answer : result research_response) :
  client_built svc ses t ->
  firecrawl svc (before_research t) (firecrawl_api_key ses) query
    (ResearchParams d tl mu) = (activities, answer) ->
  run_deep_research svc ses query d tl mu t
  = match results ← answer; get_method (data_of results) with
    | Ok data =>
        (Done (Research true None
                 (default (VStr []) (finalAnalysis data))
                 (default (Some []) (data_sources data))),
         before_research t
         ++ research_events ses query (ResearchParams d tl mu) activities)
    | Raise e =>
        (Done (Research false (Some (str_of_exn e)) (VStr []) (Some [])),
         before_research t
         ++ research_events ses query (ResearchParams d tl mu) activities
         ++ [StError (lit "Deep research error: " ++ str_of_exn e)])
    end.
Proof.
  intros Hc Hsvc. unfold client_built in Hc.
  unfold run_deep_research, try_except, FirecrawlApp.
  unfold mbind at 1, io_bind at 1. rewrite Hc. cbn [of_result].
  change (@mret io _ unit tt t) with (@Done unit tt, t). cbv beta iota.
  rewrite !bind_emit, <- app_assoc.
  change (t ++ [StEmpty] ++ [StSpinner ?x]) with (before_research t).
  unfold mbind at 1, io_bind at 1.
  rewrite (deep_research_run _ _ _ _ _ Hsvc).
  destruct answer as [results|e]; cbn [mbind result_bind].
  - fold (data_of results).
    destruct (get_method (data_of results)) as [data|e]; cbn [of_result].
    + reflexivity.
    + unfold mbind at 1, io_bind at 1. unfold raise.
      rewrite bind_emit, <- !app_assoc. reflexivity.
  - rewrite bind_emit, <- !app_assoc. reflexivity.
Qed.

(** Whatever raised, the record returned carries its message. *)
Lemma run_deep_research_failed (query : str) (d tl mu : Z) (t : list event)
    (activities : list dict) (e : exn) :
  research_outcome svc ses query (ResearchParams d tl mu) t
    = (activities, Raise e) ->
  fst (run_deep_research svc ses query d tl mu t)
  = Done (Research false (Some (str_of_exn e)) (VStr []) (Some [])).
Proof.
  unfold research_outcome.
  destruct (firecrawl_app svc t (firecrawl_api_key ses)) as [[]|e'] eqn:Hc.
  - destruct (firecrawl svc (before_research t) _ _ _) as [acts answer] eqn:Hsvc.
    intros [= <- Hr].
    rewrite (run_deep_research_called _ _ _ _ t acts answer Hc Hsvc).
    destruct answer as [results|e'']; cbn [mbind result_bind] in *.
    + destruct (get_method (data_of results)); cbn [mbind result_bind] in Hr;
        [discriminate|]. by injection Hr as ->.
    + by injection Hr as ->.
  - intros [= <- ->].
    by rewrite (run_deep_research_client_failed _ _ _ _ t e Hc).
Qed.

Lemma groq_chat_trace (system user : str) (temperature : float) (t : list event) :
  snd (groq_chat svc ses system user temperature t)
  = t ++ [GroqChatCompletion (groq_api_key ses)
            (chat_request ses system user temperature)].
Proof.
  unfold groq_chat, chat_completions_create, chat_request.
  unfold mbind at 1, io_bind at 1. rewrite bind_emit.
  destruct (groq svc t _ _) as [resp|e]; simpl; [|done].
  destruct (choices resp); done.
Qed.

Lemma groq_chat_done (system user : str) (temperature : float)
    (t : list event) (reply : str) :
  fst (groq_chat svc ses system user temperature t) = Done reply ->
  exists resp c cs,
    groq svc t (groq_api_key ses) (chat_request ses system user temperature)
      = Ok resp
    /\ choices resp = c :: cs
    /\ reply = message_content (choice_message c).
Proof.
  unfold groq_chat, chat_completions_create, chat_request.
  unfold mbind at 1, io_bind at 1. rewrite bind_emit.
  destruct (groq svc t _ _) as [resp|e]; simpl; [|done].
  destruct (choices resp) as [|c cs] eqn:Hc; simpl; [done|].
  intros [= <-]. by exists resp, c, cs.
Qed.

Lemma groq_chat_reply (system user : str) (temperature : float)
    (t : list event) (resp : completion) (c : choice) (cs : list choice) :
  groq svc t (groq_api_key ses) (chat_request ses system user temperature)
    = Ok resp ->
  choices resp = c :: cs ->
  fst (groq_chat svc ses system user temperature t)
  = Done (message_content (choice_message c)).
Proof.
  intros Hsvc Hc.
  unfold groq_chat, chat_completions_create, chat_request in *.
  unfold mbind at 1, io_bind at 1. rewrite bind_emit.
  rewrite Hsvc. simpl. rewrite Hc. done.
Qed.

End Steps.

(** ** The completion helper *)

(** C6. [groq_chat] sends one request, holding exactly two messages: the
    system string under role "system", then the user string under role
    "user"; and it returns the content of the first choice of the
    answer. *)
Theorem groq_chat_contract (svc : services) (ses : session)
    (system user : str) (temperature : float) (t : list event) :
  snd (groq_chat svc ses system user temperature t)
  = t ++ [GroqChatCompletion (groq_api_key ses)
            (CompletionRequest (model ses) temperature
               [Message (lit "system") system; Message (lit "user") user])]
  /\ forall resp c cs,
       groq svc t (groq_api_key ses)
         (CompletionRequest (model ses) temperature
            [Message (lit "system") system; Message (lit "user") user])
       = Ok resp ->
       choices resp = c :: cs ->
       fst (groq_chat svc ses system user temperature t)
       = Done (message_content (choice_message c)).
Proof.
  split.
  - apply groq_chat_trace.
  - intros resp c cs Hsvc Hc. by apply (groq_chat_reply svc ses _ _ _ _ resp c cs).
Qed.

(** ** Runs of the script *)

Section Runs.

Variable svc : services.
Variable ses : session.

Lemma main_started (t : list event) :
  started ses ->
  main svc ses t
  = match start_research svc ses t with
    | (Done _, t') => (Done tt, t' ++ footer)
    | (Raised e, t') => (Raised e, t')
    | (Stopped, t') => (Stopped, t')
    end.
Proof.
  intros [Hp Ht]. unfold main, button. rewrite Hp.
  destruct (research_topic ses) as [|c topic]; [done|].
  change (true && negb (negb (truthy (VStr (c :: topic))))) with true.
  rewrite bind_ret. cbv iota.
  unfold mbind at 1, io_bind at 1.
  destruct (start_research svc ses t) as [[[]|e|] t']; try done.
  cbv beta. rewrite bind_emit. unfold emit, footer. by rewrite <- app_assoc.
Qed.

Lemma main_not_started (t : list event) :
  ~ started ses -> main svc ses t = (Done tt, t ++ footer).
Proof.
  intros Hn. unfold main, button.
  assert (Hb : start_pressed ses && negb (negb (truthy (VStr (research_topic ses))))
               = false).
  { destruct (start_pressed ses) eqn:Hp; [|done].
    destruct (research_topic ses) as [|c topic] eqn:Ht; [done|].
    exfalso. apply Hn. split; [done|]. by rewrite Ht. }
  rewrite Hb, bind_ret. cbv iota. rewrite bind_ret, bind_emit.
  unfold emit, footer. by rewrite <- app_assoc.
Qed.

Lemma start_research_no_groq_key (t : list event) :
  groq_api_key ses = [] ->
  start_research svc ses t = (Stopped, t ++ [groq_key_warning]).
Proof.
  intros Hk. unfold start_research, _require_keys. rewrite Hk. reflexivity.
Qed.

Lemma start_research_no_firecrawl_key (t : list event) :
  groq_api_key ses <> [] -> firecrawl_api_key ses = [] ->
  start_research svc ses t = (Stopped, t ++ [firecrawl_key_warning]).
Proof.
  intros Hg Hk. unfold start_research, _require_keys. rewrite Hk.
  destruct (groq_api_key ses); [done|]. reflexivity.
Qed.

Lemma require_keys_present (t : list event) :
  keys_present ses -> _require_keys ses t = (Done true, t).
Proof.
  intros [Hg Hf]. unfold _require_keys.
  destruct (groq_api_key ses); [done|].
  destruct (firecrawl_api_key ses); [done|]. reflexivity.
Qed.

(** What [research_answer] says of the two oracles. *)
Lemma research_answer_raise (t : list event) (activities : list dict) (e : exn) :
  client_built svc ses t ->
  research_answer svc ses t = (activities, Raise e) ->
  exists answer,
    firecrawl svc (before_research t) (firecrawl_api_key ses)
      (research_topic ses) main_params = (activities, answer)
    /\ (results ← answer; get_method (data_of results)) = Raise e.
Proof.
  unfold client_built, research_answer, research_outcome. intros ->.
  destruct (firecrawl svc _ _ _ _) as [acts answer].
  intros [= <- Hr]. exists answer. split; [done|].
  destruct answer as [results|e']; cbn [mbind result_bind] in *;
    [|by injection Hr as ->].
  destruct (get_method (data_of results)); cbn [mbind result_bind] in *;
    [discriminate|by injection Hr as ->].
Qed.

Lemma research_answer_ok (t : list event) (activities : list dict)
    (results : research_response) :
  research_answer svc ses t = (activities, Ok results) ->
  client_built svc ses t
  /\ firecrawl svc (before_research t) (firecrawl_api_key ses)
       (research_topic ses) main_params = (activities, Ok results)
  /\ exists data, get_method (data_of results) = Ok data.
Proof.
  unfold client_built, research_answer, research_outcome.
  destruct (firecrawl_app svc t _) as [[]|e]; [|discriminate].
  destruct (firecrawl svc _ _ _ _) as [acts answer].
  intros [= <- Hr].
  destruct answer as [results'|e']; cbn [mbind result_bind] in *; [|discriminate].
  destruct (get_method (data_of results')) as [data|e'] eqn:Hd;
    cbn [mbind result_bind] in *; [|discriminate].
  injection Hr as <-. repeat split. by exists data.
Qed.

Lemma start_research_keys (t : list event) :
  keys_present ses ->
  start_research svc ses t
  = match run_deep_research svc ses (research_topic ses) 3 180 10 t with
    | (Done research, t') =>
        if success research then write_reports svc ses research t'
        else (Stopped, t')
    | (Raised e, t') => (Raised e, t')
    | (Stopped, t') => (Stopped, t')
    end.
Proof.
  intros Hk. unfold start_research.
  unfold mbind at 1, io_bind at 1. rewrite (require_keys_present t Hk).
  simpl negb. cbv beta iota.
  rewrite bind_ret. unfold mbind at 1, io_bind at 1.
  destruct (run_deep_research svc ses _ _ _ _ t) as [[research|e|] t']; try done.
  unfold mbind at 1, io_bind at 1. by destruct (success research).
Qed.

Lemma start_research_client_failed (t : list event) (e : exn) :
  keys_present ses ->
  firecrawl_app svc t (firecrawl_api_key ses) = Raise e ->
  start_research svc ses t
  = (Stopped, t ++ [StError (lit "Deep research error: " ++ str_of_exn e)]).
Proof.
  intros Hk Hc. rewrite (start_research_keys t Hk).
  by rewrite (run_deep_research_client_failed svc ses _ _ _ _ t e Hc).
Qed.

Lemma start_research_failed (t : list event) (activities : list dict) (e : exn) :
  keys_present ses ->
  client_built svc ses t ->
  research_answer svc ses t = (activities, Raise e) ->
  start_research svc ses t
  = (Stopped,
     before_research t
     ++ research_events ses (research_topic ses) main_params activities
     ++ [StError (lit "Deep research error: " ++ str_of_exn e)]).
Proof.
  intros Hk Hc Hsvc. rewrite (start_research_keys t Hk).
  destruct (research_answer_raise t activities e Hc Hsvc) as (answer & Hraw & Hr).
  rewrite (run_deep_research_called svc ses _ _ _ _ t activities answer Hc Hraw).
  by rewrite Hr.
Qed.

Lemma start_research_fetched (t : list event) (activities : list dict)
    (results : research_response) :
  keys_present ses ->
  research_answer svc ses t = (activities, Ok results) ->
  exists research,
    _format_sources_for_prompt (sources research) default_limit
    = _format_sources_for_prompt (Some (fetched_sources results)) default_limit
    /\ start_research svc ses t
       = write_reports svc ses research
           (before_research t
            ++ research_events ses (research_topic ses) main_params activities).
Proof.
  intros Hk Hsvc. rewrite (start_research_keys t Hk).
  destruct (research_answer_ok t activities results Hsvc) as (Hc & Hraw & data & Hd).
  rewrite (run_deep_research_called svc ses _ _ _ _ t activities (Ok results) Hc Hraw).
  cbn [mbind result_bind]. unfold fetched_sources. rewrite Hd.
  eexists. split; [|reflexivity]. cbn [sources].
  by destruct (default (Some []) (data_sources data)) as [[|s l]|].
Qed.

(** [write_reports], step by step. *)
Lemma write_reports_run (research : research) (t : list event) :
  write_reports svc ses research t
  = match _format_sources_for_prompt (sources research) default_limit with
    | Raise e => (Raised e, t)
    | Ok fs =>
        let t1 := t ++ draft_events fs in
        match fst (groq_chat svc ses system_prompt
                     (user_prompt (research_topic ses) fs) 0.2%Q t1) with
        | Raised e => (Raised e, t1 ++ [draft_call ses fs])
        | Stopped => (Stopped, t1 ++ [draft_call ses fs])
        | Done initial =>
            let h := t1 ++ draft_call ses fs :: enhance_events initial in
            match fst (groq_chat svc ses system_prompt2 (user_prompt2 initial)
                         0.3%Q h) with
            | Raised e => (Raised e, h ++ [enhance_call ses initial])
            | Stopped => (Stopped, h ++ [enhance_call ses initial])
            | Done enhanced =>
                (Done tt,
                 h ++ [enhance_call ses initial; StMarkdown enhanced;
                       download_button ses enhanced])
            end
        end
    end.
Proof.
  assert (E5 : forall (l : list event) a b c d e,
             ((((l ++ [a]) ++ [b]) ++ [c]) ++ [d]) ++ [e] = l ++ [a; b; c; d; e])
    by (intros; by rewrite <- !app_assoc).
  assert (E4 : forall (l : list event) a b c d,
             (((l ++ [a]) ++ [b]) ++ [c]) ++ [d] = l ++ [a; b; c; d])
    by (intros; by rewrite <- !app_assoc).
  assert (E3 : forall (l : list event) a b c,
             ((l ++ [a]) ++ [b]) ++ [c] = l ++ [a; b; c])
    by (intros; by rewrite <- !app_assoc).
  unfold write_reports.
  destruct (_format_sources_for_prompt _ _) as [fs|e]; [|done].
  cbv zeta. unfold of_result. rewrite bind_ret, !bind_emit, E5.
  fold (draft_events fs).
  unfold mbind at 1, io_bind at 1.
  pose proof (groq_chat_trace svc ses system_prompt
                (user_prompt (research_topic ses) fs) 0.2%Q
                (t ++ draft_events fs)) as Htr1.
  destruct (groq_chat svc ses system_prompt _ _ (t ++ draft_events fs))
    as [o1 t1].
  simpl in Htr1. subst t1. simpl fst.
  destruct o1 as [initial|e|]; [|done|done].
  rewrite !bind_emit, E4.
  unfold mbind at 1, io_bind at 1.
  pose proof (groq_chat_trace svc ses system_prompt2 (user_prompt2 initial)
                0.3%Q
                ((t ++ draft_events fs) ++ draft_call ses fs :: enhance_events initial))
    as Htr2.
  destruct (groq_chat svc ses system_prompt2 _ _ _) as [o2 t2].
  simpl in Htr2. subst t2. simpl fst.
  destruct o2 as [enhanced|e|]; [|done|done].
  rewrite bind_emit. unfold emit. by rewrite E3.
Qed.

End Runs.

(** C5. A run started with an empty Groq key or an empty Firecrawl key
    shows one warning and stops: its trace holds no call to either
    service. *)
Theorem missing_key_blocks_run (svc : services) (ses : session) :
  started ses ->
  groq_api_key ses = [] \/ firecrawl_api_key ses = [] ->
  (exists warning, run svc ses = (Stopped, [StWarning warning]))
  /\ Forall (fun ev => is_network_call ev = false) (snd (run svc ses)).
Proof.
  intros Hst Hk. unfold run. rewrite (main_started svc ses [] Hst).
  destruct (groq_api_key ses) as [|c gk] eqn:Hg.
  - rewrite (start_research_no_groq_key svc ses [] Hg).
    split; [by eexists|]. by repeat constructor.
  - destruct Hk as [Hk|Hk]; [done|].
    rewrite (start_research_no_firecrawl_key svc ses []); [|by rewrite Hg|done].
    split; [by eexists|]. by repeat constructor.
Qed.

(** ** Which events a run can hold *)

Section TraceFacts.

Variable svc : services.
Variable ses : session.

Lemma started_dec : started ses \/ ~ started ses.
Proof.
  unfold started.
  destruct (start_pressed ses); [|right; by intros [? _]].
  destruct (research_topic ses); [right; by intros [_ ?]|by left].
Qed.

Lemma keys_cases :
  groq_api_key ses = []
  \/ (groq_api_key ses <> [] /\ firecrawl_api_key ses = [])
  \/ keys_present ses.
Proof.
  unfold keys_present.
  destruct (groq_api_key ses); [by left|right].
  destruct (firecrawl_api_key ses); [by left|by right].
Qed.

Lemma activity_infos_forall (P : event -> Prop) (activities : list dict) :
  (forall body, P (StInfo body)) -> Forall P (map activity_info activities).
Proof.
  intros HP. induction activities as [|a l IH]; simpl; constructor; [|done].
  apply HP.
Qed.

Lemma no_download_in (t : list event) (label d file_name mime : str) :
  Forall (fun ev => is_download ev = false) t ->
  ~ In (StDownloadButton label d file_name mime) t.
Proof.
  intros Hall Hin. rewrite Forall_forall in Hall.
  apply list_elem_of_In in Hin. by specialize (Hall _ Hin).
Qed.

End TraceFacts.

(** Every listed event satisfies the predicate: splits the trace along
    its appends and closes each event by computation. *)
Ltac trace_forall :=
  unfold before_research, research_events, draft_events, enhance_events,
    footer, draft_call, enhance_call, groq_key_warning, firecrawl_key_warning;
  repeat first
    [ apply Forall_nil_2
    | apply Forall_app_2
    | apply Forall_cons_2
    | apply activity_infos_forall; intros ? ];
  try reflexivity.

(** ** Failure of the research service *)

(** C2. When the research call raises, [run_deep_research] returns the
    failure record: success false, the message of the exception as the
    error, an empty final analysis and no sources; so it does when the
    exception comes from building the client before the call or from
    reading the answer after it. A run whose research call raises holds
    no completion call, and stops there when it got that far. *)
Theorem research_failure_halts (svc : services) (ses : session) :
  (forall query d tl mu t activities e,
     research_outcome svc ses query (ResearchParams d tl mu) t
       = (activities, Raise e) ->
     fst (run_deep_research svc ses query d tl mu t)
     = Done (Research false (Some (exn_message e)) (VStr []) (Some [])))
  /\ (forall activities e,
        research_answer svc ses [] = (activities, Raise e) ->
        Forall (fun ev => is_groq_call ev = false) (snd (run svc ses))
        /\ (started ses -> keys_present ses -> fst (run svc ses) = Stopped)).
Proof.
  split.
  - intros query d tl mu t activities e Hsvc.
    by rewrite (run_deep_research_failed svc ses _ _ _ _ t activities e Hsvc).
  - intros activities e Hsvc. unfold run.
    assert (Hrun : keys_present ses ->
              fst (start_research svc ses []) = Stopped
              /\ Forall (fun ev => is_groq_call ev = false)
                   (snd (start_research svc ses []))).
    { intros Hk.
      destruct (firecrawl_app svc [] (firecrawl_api_key ses)) as [[]|e'] eqn:Hc.
      - rewrite (start_research_failed svc ses [] activities e Hk Hc Hsvc).
        split; [done|]. cbn [snd]. trace_forall.
      - rewrite (start_research_client_failed svc ses [] e' Hk Hc).
        split; [done|]. cbn [snd]. trace_forall. }
    split.
    + destruct (started_dec ses) as [Hst|Hst].
      * rewrite (main_started svc ses [] Hst).
        destruct (keys_cases ses) as [Hg|[[Hg Hf]|Hk]].
        -- rewrite (start_research_no_groq_key svc ses [] Hg). trace_forall.
        -- rewrite (start_research_no_firecrawl_key svc ses [] Hg Hf).
           trace_forall.
        -- destruct (Hrun Hk) as [Hstop Hno].
           destruct (start_research svc ses []) as [o t']. cbn [fst snd] in *.
           by subst o.
      * rewrite (main_not_started svc ses [] Hst). simpl snd. trace_forall.
    + intros Hst Hk. rewrite (main_started svc ses [] Hst).
      destruct (Hrun Hk) as [Hstop _].
      destruct (start_research svc ses []) as [o t']. cbn [fst] in *.
      by subst o.
Qed.

(** ** The download *)

(** C4. When a run shows the download button, the trace ends with the
    Enhancer call, the enhanced report, the button and the footer; the
    data of the button is the content of the first choice of the answer
    to that call, and the file name is the topic with each space turned
    into an underscore, followed by "_report.md". *)
Theorem download_is_enhanced_report (svc : services) (ses : session)
    (label d file_name mime : str) :
  In (StDownloadButton label d file_name mime) (snd (run svc ses)) ->
  exists h initial_report resp c cs,
    let request :=
      CompletionRequest (model ses) 0.3%Q
        [Message (lit "system") system_prompt2;
         Message (lit "user") (user_prompt2 initial_report)] in
    snd (run svc ses)
    = h ++ [GroqChatCompletion (groq_api_key ses) request;
            StMarkdown d;
            StDownloadButton label d file_name mime] ++ footer
    /\ groq svc h (groq_api_key ses) request = Ok resp
    /\ choices resp = c :: cs
    /\ d = message_content (choice_message c)
    /\ file_name = replace 32 95 (research_topic ses) ++ lit "_report.md".
Proof.
  unfold run. intros Hin.
  destruct (started_dec ses) as [Hst|Hst].
  2: { rewrite (main_not_started svc ses [] Hst) in Hin.
       exfalso. revert Hin. apply no_download_in. cbn [snd]. trace_forall. }
  rewrite (main_started svc ses [] Hst) in Hin |- *.
  destruct (keys_cases ses) as [Hg|[[Hg Hf]|Hk]].
  { rewrite (start_research_no_groq_key svc ses [] Hg) in Hin.
    exfalso. revert Hin. apply no_download_in. trace_forall. }
  { rewrite (start_research_no_firecrawl_key svc ses [] Hg Hf) in Hin.
    exfalso. revert Hin. apply no_download_in. trace_forall. }
  destruct (firecrawl_app svc [] (firecrawl_api_key ses)) as [[]|e] eqn:Hcl.
  2: { rewrite (start_research_client_failed svc ses [] e Hk Hcl) in Hin.
       exfalso. revert Hin. apply no_download_in. cbn [snd]. trace_forall. }
  destruct (research_answer svc ses []) as [activities [results|e]] eqn:Hsvc.
  2: { rewrite (start_research_failed svc ses [] activities e Hk Hcl Hsvc) in Hin.
       exfalso. revert Hin. apply no_download_in. cbn [snd]. trace_forall. }
  destruct (start_research_fetched svc ses [] activities results Hk Hsvc)
    as (research & _ & Hrun).
  rewrite Hrun, write_reports_run in Hin |- *.
  set (t0 := before_research []
             ++ research_events ses (research_topic ses) (main_params) activities)
    in *.
  assert (Ht0 : Forall (fun ev => is_download ev = false) t0)
    by (unfold t0; trace_forall).
  destruct (_format_sources_for_prompt _ _) as [fs|e].
  2: { exfalso. revert Hin. by apply no_download_in. }
  cbv zeta in Hin |- *.
  destruct (fst (groq_chat svc ses system_prompt _ _ (t0 ++ draft_events fs)))
    as [initial|e|] eqn:Hg1.
  2,3: exfalso; revert Hin; apply no_download_in; cbn [snd];
       apply Forall_app_2; [apply Forall_app_2; [done|]|]; trace_forall.
  set (h := (t0 ++ draft_events fs) ++ draft_call ses fs :: enhance_events initial)
    in *.
  assert (Hh : Forall (fun ev => is_download ev = false) h).
  { unfold h. apply Forall_app_2; [apply Forall_app_2; [done|]|]; trace_forall. }
  destruct (fst (groq_chat svc ses system_prompt2 _ _ h))
    as [enhanced|e|] eqn:Hg2.
  2,3: exfalso; revert Hin; apply no_download_in; cbn [snd];
       apply Forall_app_2; [done|]; trace_forall.
  cbn [snd] in Hin |- *.
  destruct (groq_chat_done svc ses _ _ _ h enhanced Hg2) as (resp & c & cs & Hsvc2 & Hc & Henh).
  exists h, initial, resp, c, cs. cbv zeta.
  apply in_app_or in Hin as [Hin|Hin].
  - apply in_app_or in Hin as [Hin|Hin].
    + exfalso. revert Hin. by apply no_download_in.
    + simpl in Hin. destruct Hin as [Hin|[Hin|[Hin|[]]]]; try discriminate.
      unfold download_button in Hin. injection Hin as <- <- <- <-.
      repeat split; try done.
      by rewrite <- app_assoc.
  - exfalso. revert Hin. apply no_download_in. trace_forall.
Qed.

(** ** Sample runs *)

Lemma groq_chat_contract_witness :
  fst (groq_chat answering ready (lit "Be brief.") (lit "Hello") 0.2%Q [])
  = Done (lit "draft").
Proof.
  destruct (groq_chat_contract answering ready (lit "Be brief.") (lit "Hello")
              0.2%Q []) as [_ Hret].
  apply (Hret (Completion [Choice (CompletionMessage (lit "draft"))])
              (Choice (CompletionMessage (lit "draft"))) []); reflexivity.
Defined.

Lemma missing_key_blocks_run_witness :
  (exists warning, run answering without_firecrawl_key = (Stopped, [StWarning warning]))
  /\ Forall (fun ev => is_network_call ev = false)
       (snd (run answering without_firecrawl_key)).
Proof.
  apply (missing_key_blocks_run answering without_firecrawl_key).
  - split; [reflexivity|discriminate].
  - right. reflexivity.
Defined.

Lemma research_failure_halts_witness :
  fst (run_deep_research failing ready (lit "AI safety news") 3 180 10 [])
  = Done (Research false (Some (lit "Request timed out")) (VStr []) (Some []))
  /\ Forall (fun ev => is_groq_call ev = false) (snd (run failing ready))
  /\ fst (run failing ready) = Stopped.
Proof.
  destruct (research_failure_halts failing ready) as [Hret Hrun].
  split.
  - apply (Hret _ 3 180 10 [] [an_activity]
             (Exn (lit "Exception") (lit "Request timed out"))).
    reflexivity.
  - destruct (Hrun [an_activity] (Exn (lit "Exception") (lit "Request timed out")))
      as [Hno Hstop]; [reflexivity|].
    split; [exact Hno|]. apply Hstop.
    + split; [reflexivity|discriminate].
    + split; discriminate.
Defined.

Lemma download_is_enhanced_report_witness :
  exists h initial_report resp c cs,
    let request :=
      CompletionRequest (model ready) 0.3%Q
        [Message (lit "system") system_prompt2;
         Message (lit "user") (user_prompt2 initial_report)] in
    snd (run answering ready)
    = h ++ [GroqChatCompletion (groq_api_key ready) request;
            StMarkdown (lit "final");
            StDownloadButton (lit "Download Enhanced Report (Markdown)")
              (lit "final") (lit "AI_safety_news_report.md")
              (lit "text/markdown")] ++ footer
    /\ groq answering h (groq_api_key ready) request = Ok resp
    /\ choices resp = c :: cs
    /\ lit "final" = message_content (choice_message c)
    /\ lit "AI_safety_news_report.md"
       = replace 32 95 (research_topic ready) ++ lit "_report.md".
Proof.
  apply (download_is_enhanced_report answering ready).
  vm_compute. repeat (first [left; reflexivity | right]).
Defined.

(** * Further properties of the formatter *)

Section DigestFacts.

(** The digest of a non-empty list whose slice is its first [n] records. *)
Lemma format_take (ss : list source) (limit : Z) (n : nat) :
  ss <> [] ->
  slice_to ss limit = take n ss ->
  (forall k s, (k < n)%nat -> ss !! k = Some s -> has_str_summary s) ->
  exists lines,
    _format_sources_for_prompt (Some ss) limit = Ok (join (nl ++ nl) lines)
    /\ length lines = Nat.min n (length ss)
    /\ forall k s, (k < n)%nat -> ss !! k = Some s ->
       exists summary,
         source_summary s = Ok summary
         /\ lines !! k
            = Some (entry_text (Z.of_nat k + 1) (source_title s) (source_url s)
                      summary).
Proof.
  intros Hne Hslice Hty.
  destruct (format_loop_ok (take n ss) 1 []) as (lines & Hloop & Hl & Hlines).
  { intros k s Hk. apply lookup_take_Some in Hk as [Hk Hlt]. by apply (Hty k). }
  exists lines. repeat split.
  - destruct ss as [|s0 ss']; [done|].
    unfold _format_sources_for_prompt. rewrite Hslice, Hloop. done.
  - by rewrite Hl, length_take.
  - intros k s Hk Hs.
    assert (Ht : take n ss !! k = Some s) by (by rewrite lookup_take_lt).
    destruct (Hlines k s Ht) as (summary & Hsum & Hline).
    exists summary. split; [done|]. rewrite Hline. do 2 f_equal. lia.
Qed.

Lemma slice_to_nonneg {A} (l : list A) (limit : Z) :
  0 <= limit -> slice_to l limit = take (Z.to_nat limit) l.
Proof.
  intros H. unfold slice_to. by destruct (Z.leb_spec 0 limit); [|lia].
Qed.

Lemma slice_to_neg {A} (l : list A) (limit : Z) :
  limit < 0 -> slice_to l limit = take (length l - Z.to_nat (- limit)) l.
Proof.
  intros H. unfold slice_to. destruct (Z.leb_spec 0 limit); [lia|].
  f_equal. lia.
Qed.

(** A record without a string summary raises [AttributeError]. *)
Lemma format_entry_raises (i : Z) (s : source) :
  ~ has_str_summary s ->
  exists e, format_entry i s = Raise e /\ exn_class e = lit "AttributeError".
Proof.
  intros Hno. unfold format_entry, source_summary.
  destruct (source_summary_raw s) as [|b|n|sm] eqn:Hraw;
    try (eexists; split; reflexivity).
  exfalso. apply Hno. by exists sm.
Qed.

Lemma format_entry_cases (i : Z) (s : source) :
  (has_str_summary s /\ exists line, format_entry i s = Ok line)
  \/ (~ has_str_summary s
      /\ exists e, format_entry i s = Raise e
                   /\ exn_class e = lit "AttributeError").
Proof.
  destruct (source_summary_raw s) as [|b|n|sm] eqn:Hraw.
  4: { left. split; [by exists sm|].
       destruct (format_entry_ok i s) as (summary & _ & H); [by exists sm|].
       by eexists. }
  all: right; assert (Hno : ~ has_str_summary s)
         by (intros [sm Hsm]; congruence);
       split; [done|]; by apply format_entry_raises.
Qed.

Lemma format_loop_raises (ss : list source) :
  forall (i : Z) (acc : list str) (k : nat) (s : source),
  ss !! k = Some s -> ~ has_str_summary s ->
  exists e, format_loop i ss acc = Raise e
            /\ exn_class e = lit "AttributeError".
Proof.
  induction ss as [|s0 ss IH]; intros i acc k s Hk Hno; [done|].
  simpl. destruct (format_entry_cases i s0) as [[Hstr [line Hline]]|[_ (e & He & Hc)]].
  - rewrite Hline. simpl. destruct k as [|k].
    + injection Hk as ->. done.
    + by apply (IH _ _ k s).
  - rewrite He. by exists e.
Qed.

End DigestFacts.

Section SlicedDigest.

(** The digest of a non-empty list whose slice is its first [n]
    records, character by character. *)
Lemma format_take_text (ss : list source) (limit : Z) (n : nat) :
  ss <> [] ->
  slice_to ss limit = take n ss ->
  (forall k s, (k < n)%nat -> ss !! k = Some s -> has_str_summary s) ->
  exists entries,
    _format_sources_for_prompt (Some ss) limit
      = Ok (match entries with
            | [] => []
            | first :: rest =>
                first ++ concat (map (fun entry => [10%N; 10%N] ++ entry) rest)
            end)
    /\ length entries = Nat.min n (length ss)
    /\ forall k s, (k < n)%nat -> ss !! k = Some s ->
       exists summary,
         source_summary s = Ok summary
         /\ entries !! k
            = Some (str_of_int (Z.of_nat k + 1) ++ lit ". "
                    ++ py_str (source_title s) ++ [10%N]
                    ++ lit "   URL: " ++ py_str (source_url s) ++ [10%N]
                    ++ lit "   Summary: " ++ summary).
Proof.
  intros Hne Hslice Hty.
  destruct (format_take ss limit n Hne Hslice Hty) as (lines & Hfmt & Hlen & Hlines).
  rewrite join_blank_lines in Hfmt. by exists lines.
Qed.

End SlicedDigest.

(** X1. With a limit that is not negative, a non-empty list of records
    with string summaries is rendered up to the limit: the digest holds
    min(limit, length) entries, the first one followed by each other
    after a blank line, and none when the limit is 0; entry [k] renders
    record [k] under the number [k + 1], with its title, its URL and its
    summary on three lines. A list shorter than the limit is rendered
    whole. *)
Theorem digest_within_limit (ss : list source) (limit : Z) :
  ss <> [] ->
  0 <= limit ->
  (forall k s, (k < Z.to_nat limit)%nat -> ss !! k = Some s -> has_str_summary s) ->
  exists entries,
    _format_sources_for_prompt (Some ss) limit
      = Ok (match entries with
            | [] => []
            | first :: rest =>
                first ++ concat (map (fun entry => [10%N; 10%N] ++ entry) rest)
            end)
    /\ length entries = Nat.min (Z.to_nat limit) (length ss)
    /\ forall k s, (k < Z.to_nat limit)%nat -> ss !! k = Some s ->
       exists summary,
         source_summary s = Ok summary
         /\ entries !! k
            = Some (str_of_int (Z.of_nat k + 1) ++ lit ". "
                    ++ py_str (source_title s) ++ [10%N]
                    ++ lit "   URL: " ++ py_str (source_url s) ++ [10%N]
                    ++ lit "   Summary: " ++ summary).
Proof.
  intros Hne Hlim Hty. apply format_take_text; [done| |done].
  by apply slice_to_nonneg.
Qed.

Lemma digest_within_limit_witness :
  (exists entries,
     _format_sources_for_prompt (Some [a_source; an_aliased_source]) 12
       = Ok (match entries with
             | [] => []
             | first :: rest =>
                 first ++ concat (map (fun entry => [10%N; 10%N] ++ entry) rest)
             end)
     /\ length entries = 2%nat)
  /\ _format_sources_for_prompt (Some [a_source; an_aliased_source]) 12
     = Ok (lit "1. Paper" ++ [10%N] ++ lit "   URL: https://example.org/p" ++ [10%N]
          ++ lit "   Summary: A summary."
          ++ [10%N; 10%N]
          ++ lit "2. Blog" ++ [10%N] ++ lit "   URL: https://example.org/b" ++ [10%N]
          ++ lit "   Summary: Text").
Proof.
  split; [|vm_compute; reflexivity].
  destruct (digest_within_limit [a_source; an_aliased_source] 12)
    as (entries & Hfmt & Hlen & _).
  - discriminate.
  - lia.
  - intros [|[|k]] s _ Hs; simpl in Hs; [| |done].
    + injection Hs as <-. by exists (lit " A summary. ").
    + injection Hs as <-. by exists (lit "Text").
  - exists entries. split; [exact Hfmt|exact Hlen].
Defined.

(** X2. A negative limit drops that many records from the end of the
    list: with [limit < 0], the digest holds the first
    [length - |limit|] records and no other, numbered from 1, the first
    entry followed by each other after a blank line; it is empty when
    nothing is left. *)
Theorem negative_limit_drops_tail (ss : list source) (limit : Z) :
  ss <> [] ->
  limit < 0 ->
  (forall k s, (k < length ss - Z.to_nat (- limit))%nat -> ss !! k = Some s ->
               has_str_summary s) ->
  exists entries,
    _format_sources_for_prompt (Some ss) limit
      = Ok (match entries with
            | [] => []
            | first :: rest =>
                first ++ concat (map (fun entry => [10%N; 10%N] ++ entry) rest)
            end)
    /\ length entries = (length ss - Z.to_nat (- limit))%nat
    /\ forall k s, (k < length ss - Z.to_nat (- limit))%nat -> ss !! k = Some s ->
       exists summary,
         source_summary s = Ok summary
         /\ entries !! k
            = Some (str_of_int (Z.of_nat k + 1) ++ lit ". "
                    ++ py_str (source_title s) ++ [10%N]
                    ++ lit "   URL: " ++ py_str (source_url s) ++ [10%N]
                    ++ lit "   Summary: " ++ summary).
Proof.
  intros Hne Hlim Hty.
  destruct (format_take_text ss limit (length ss - Z.to_nat (- limit)) Hne)
    as (entries & Hfmt & Hlen & Hlines); [by apply slice_to_neg|done|].
  exists entries. repeat split; [done| |done].
  rewrite Hlen. lia.
Qed.

Lemma negative_limit_drops_tail_witness :
  (exists entries,
     _format_sources_for_prompt
       (Some [a_source; an_aliased_source; a_numbered_source]) (-1)
       = Ok (match entries with
             | [] => []
             | first :: rest =>
                 first ++ concat (map (fun entry => [10%N; 10%N] ++ entry) rest)
             end)
     /\ length entries = 2%nat)
  /\ _format_sources_for_prompt
       (Some [a_source; an_aliased_source; a_numbered_source]) (-1)
     = Ok (lit "1. Paper" ++ [10%N] ++ lit "   URL: https://example.org/p" ++ [10%N]
          ++ lit "   Summary: A summary."
          ++ [10%N; 10%N]
          ++ lit "2. Blog" ++ [10%N] ++ lit "   URL: https://example.org/b" ++ [10%N]
          ++ lit "   Summary: Text").
Proof.
  split; [|vm_compute; reflexivity].
  destruct (negative_limit_drops_tail
              [a_source; an_aliased_source; a_numbered_source] (-1))
    as (entries & Hfmt & Hlen & _).
  - discriminate.
  - lia.
  - intros [|[|k]] s Hk Hs; simpl in Hs, Hk; [| |lia].
    + injection Hs as <-. by exists (lit " A summary. ").
    + injection Hs as <-. by exists (lit "Text").
  - exists entries. split; [exact Hfmt|exact Hlen].
Defined.

(** X3. A record of the slice whose summary, after the fallbacks, is
    not a string makes the formatter raise [AttributeError]: no digest
    is returned, whatever the other records hold. *)
Theorem non_string_summary_raises (ss : list source) (limit : Z) (k : nat)
    (s : source) :
  slice_to ss limit !! k = Some s ->
  ~ has_str_summary s ->
  exists e,
    _format_sources_for_prompt (Some ss) limit = Raise e
    /\ exn_class e = lit "AttributeError".
Proof.
  intros Hk Hno.
  destruct ss as [|s0 ss'].
  { unfold slice_to in Hk. by destruct (0 <=? limit); rewrite take_nil in Hk. }
  unfold _format_sources_for_prompt.
  destruct (format_loop_raises (slice_to (s0 :: ss') limit) 1 [] k s Hk Hno)
    as (e & He & Hc).
  rewrite He. by exists e.
Qed.

Lemma non_string_summary_raises_witness :
  exists e,
    _format_sources_for_prompt (Some [a_source; a_numbered_source]) 12 = Raise e
    /\ exn_class e = lit "AttributeError".
Proof.
  apply (non_string_summary_raises [a_source; a_numbered_source] 12 1
           a_numbered_source).
  - reflexivity.
  - intros [sm Hsm]. vm_compute in Hsm. discriminate.
Defined.

Section SummaryFacts.

Lemma truncate_bounded (summary : str) : len (truncate summary) <= 401.
Proof.
  destruct (Z_le_gt_dec (len summary) 400) as [Hs|Hl].
  - rewrite truncate_short by done. lia.
  - destruct (truncate_long summary Hl) as [_ ->]. lia.
Qed.

Lemma lstrip_blank (s : str) :
  Forall (fun c => isspace c = true) s -> lstrip s = [].
Proof.
  induction 1 as [|c s Hc _ IH]; simpl; [done|]. by rewrite Hc.
Qed.

Lemma strip_blank (s : str) :
  Forall (fun c => isspace c = true) s -> strip s = [].
Proof. intros H. unfold strip. by rewrite (lstrip_blank s H). Qed.

End SummaryFacts.

(** X4. Whatever the record holds, a summary that is rendered has at
    most 401 characters. *)
Theorem rendered_summary_bounded (s : source) (rendered : str) :
  source_summary s = Ok rendered -> len rendered <= 401.
Proof.
  unfold source_summary.
  destruct (source_summary_raw s) as [|b|n|sm]; simpl; try discriminate.
  intros [= <-]. apply truncate_bounded.
Qed.

Lemma rendered_summary_bounded_witness :
  len (lit "A summary.") <= 401.
Proof.
  apply (rendered_summary_bounded a_source (lit "A summary.")). reflexivity.
Defined.

(** X5. The second key of each pair is the fallback of the first: when
    "title" (or "url", or "summary") is missing or empty and "name" (or
    "link", or "content") holds a non-empty string, that string is the
    one rendered. *)
Theorem alias_fallbacks (s : source) (v : str) :
  v <> [] ->
  (absent_or_empty s (lit "title") -> s !! lit "name" = Some (VStr v) ->
   source_title s = VStr v)
  /\ (absent_or_empty s (lit "url") -> s !! lit "link" = Some (VStr v) ->
      source_url s = VStr v)
  /\ (absent_or_empty s (lit "summary") -> s !! lit "content" = Some (VStr v) ->
      source_summary s = Ok (truncate (strip v))).
Proof.
  intros Hv. repeat split.
  - intros H1 H2. apply second_key_chosen; [by apply absent_or_empty_falsy|done..].
  - intros H1 H2. apply second_key_chosen; [by apply absent_or_empty_falsy|done..].
  - intros H1 H2. apply source_summary_of_raw.
    apply second_key_chosen; [by apply absent_or_empty_falsy|done..].
Qed.

Lemma alias_fallbacks_witness :
  source_title an_aliased_source = VStr (lit "Blog")
  /\ source_summary an_aliased_source = Ok (truncate (strip (lit "Text"))).
Proof.
  split.
  - destruct (alias_fallbacks an_aliased_source (lit "Blog")) as (H & _ & _);
      [discriminate|].
    apply H; [right; reflexivity|reflexivity].
  - destruct (alias_fallbacks an_aliased_source (lit "Text")) as (_ & _ & H);
      [discriminate|].
    apply H; [left; reflexivity|reflexivity].
Defined.

(** X6. A "summary" made of whitespace only is not empty, so it is the
    one chosen, and it is rendered as the empty string: the record's
    "content" is not used. *)
Theorem blank_summary_hides_content (s : source) (sm : str) :
  s !! lit "summary" = Some (VStr sm) ->
  sm <> [] ->
  Forall (fun c => isspace c = true) sm ->
  source_summary s = Ok [].
Proof.
  intros Hk Hne Hblank.
  rewrite (source_summary_of_raw s sm) by (by apply first_key_chosen).
  by rewrite (strip_blank sm Hblank).
Qed.

Lemma blank_summary_hides_content_witness :
  a_blank_source !! lit "content" = Some (VStr (lit "Text"))
  /\ source_summary a_blank_source = Ok [].
Proof.
  split; [reflexivity|].
  apply (blank_summary_hides_content a_blank_source (lit "   "));
    [reflexivity|discriminate|by repeat constructor].
Defined.

(** X7. The offered file name holds no space, and is ten characters
    longer than the topic. *)
Theorem report_file_name_no_space (topic : str) :
  ~ In 32%N (report_file_name topic)
  /\ len (report_file_name topic) = len topic + 10.
Proof.
  unfold report_file_name, replace, len. split.
  - intros Hin. apply in_app_or in Hin as [Hin|Hin].
    + apply in_map_iff in Hin as (c & Hc & _).
      destruct (N.eqb_spec c 32); [discriminate|done].
    + vm_compute in Hin. repeat (destruct Hin as [Hin|Hin]; [discriminate|]).
      done.
  - rewrite length_app, length_map.
    change (length (lit "_report.md")) with 10%nat. lia.
Qed.

(** * Further properties of the services and of a run *)

Section ChatFacts.

Variable svc : services.
Variable ses : session.

(** How [groq_chat] ends, by the answer of the service. *)
Lemma groq_chat_cases (system user : str) (temperature : float) (t : list event) :
  match groq svc t (groq_api_key ses) (chat_request ses system user temperature) with
  | Raise e => fst (groq_chat svc ses system user temperature t) = Raised e
  | Ok resp =>
      match choices resp with
      | [] => fst (groq_chat svc ses system user temperature t)
              = Raised (Exn (lit "IndexError") (lit "list index out of range"))
      | c :: _ => fst (groq_chat svc ses system user temperature t)
                  = Done (message_content (choice_message c))
      end
  end.
Proof.
  unfold groq_chat, chat_completions_create, chat_request.
  unfold mbind at 1 4 7, io_bind at 1 4 7. rewrite !bind_emit.
  destruct (groq svc t _ _) as [resp|e]; simpl; [|done].
  destruct (choices resp); done.
Qed.

Lemma groq_chat_not_stopped (system user : str) (temperature : float)
    (t : list event) :
  fst (groq_chat svc ses system user temperature t) <> Stopped.
Proof.
  pose proof (groq_chat_cases system user temperature t) as H.
  destruct (groq svc t _ _) as [resp|e]; [|by rewrite H].
  destruct (choices resp); by rewrite H.
Qed.

End ChatFacts.

Section ShapeFacts.

Variable svc : services.
Variable ses : session.

(** Every run goes one of the nine ways. *)
Lemma run_has_shape :
  run_shape svc ses (fst (run svc ses)) (snd (run svc ses)).
Proof.
  unfold run.
  destruct (started_dec ses) as [Hst|Hst].
  2: { rewrite (main_not_started svc ses [] Hst). by apply run_idle. }
  rewrite (main_started svc ses [] Hst).
  destruct (keys_cases ses) as [Hg|[[Hg Hf]|Hk]].
  { rewrite (start_research_no_groq_key svc ses [] Hg). by apply run_no_groq_key. }
  { rewrite (start_research_no_firecrawl_key svc ses [] Hg Hf).
    by apply run_no_firecrawl_key. }
  destruct (firecrawl_app svc [] (firecrawl_api_key ses)) as [[]|e] eqn:Hcl.
  2: { rewrite (start_research_client_failed svc ses [] e Hk Hcl).
       by apply run_client_failed. }
  destruct (research_answer svc ses []) as [activities [results|e]] eqn:Hsvc.
  2: { rewrite (start_research_failed svc ses [] activities e Hk Hcl Hsvc).
       by apply run_research_failed. }
  destruct (start_research_fetched svc ses [] activities results Hk Hsvc)
    as (research & Hsrc & Hrun).
  rewrite Hrun, write_reports_run, Hsrc. clear Hsrc.
  fold (researched ses activities).
  destruct (_format_sources_for_prompt _ _) as [fs|e] eqn:Hfs.
  2: { by apply (run_format_failed svc ses activities results e). }
  cbv zeta. fold (drafting ses activities fs). fold (draft_reply svc ses activities fs).
  pose proof (groq_chat_not_stopped svc ses system_prompt
                (user_prompt (research_topic ses) fs) 0.2%Q
                (drafting ses activities fs)) as Hns1.
  fold (draft_reply svc ses activities fs) in Hns1.
  destruct (draft_reply svc ses activities fs) as [initial|e|] eqn:Hd; [| |done].
  2: { by apply (run_draft_failed svc ses activities results fs e). }
  fold (drafted ses activities fs initial).
  fold (enhance_reply svc ses activities fs initial).
  pose proof (groq_chat_not_stopped svc ses system_prompt2
                (user_prompt2 initial) 0.3%Q
                (drafted ses activities fs initial)) as Hns2.
  fold (enhance_reply svc ses activities fs initial) in Hns2.
  destruct (enhance_reply svc ses activities fs initial) as [enhanced|e|] eqn:He;
    [| |done].
  2: { by apply (run_enhance_failed svc ses activities results fs initial e). }
  cbn [fst snd]. rewrite <- app_assoc.
  by apply (run_completed svc ses activities results fs initial enhanced).
Qed.

End ShapeFacts.

Section CallFacts.

Variable svc : services.
Variable ses : session.

Lemma network_calls_app (t1 t2 : list event) :
  network_calls (t1 ++ t2) = network_calls t1 ++ network_calls t2.
Proof. apply List.filter_app. Qed.

Lemma network_calls_infos (activities : list dict) :
  network_calls (map activity_info activities) = [].
Proof. induction activities as [|a l IH]; [done|]. simpl. exact IH. Qed.

Lemma network_calls_researched (activities : list dict) :
  network_calls (researched ses activities) = [research_call ses].
Proof.
  unfold researched, before_research, research_events.
  rewrite !network_calls_app. simpl. by rewrite network_calls_infos.
Qed.

Lemma network_calls_drafting (activities : list dict) (fs : str) :
  network_calls (drafting ses activities fs) = [research_call ses].
Proof.
  unfold drafting. by rewrite network_calls_app, network_calls_researched.
Qed.

Lemma network_calls_drafted (activities : list dict) (fs initial : str) :
  network_calls (drafted ses activities fs initial)
  = [research_call ses; draft_call ses fs].
Proof.
  unfold drafted. by rewrite network_calls_app, network_calls_drafting.
Qed.

(** A started run with both keys, once the research call has answered. *)
Lemma run_fetched (activities : list dict) (results : research_response) :
  started ses -> keys_present ses ->
  research_answer svc ses [] = (activities, Ok results) ->
  run svc ses
  = match _format_sources_for_prompt (Some (fetched_sources results))
            default_limit with
    | Raise e => (Raised e, researched ses activities)
    | Ok fs =>
        match draft_reply svc ses activities fs with
        | Raised e => (Raised e, drafting ses activities fs ++ [draft_call ses fs])
        | Stopped => (Stopped, drafting ses activities fs ++ [draft_call ses fs])
        | Done initial =>
            match enhance_reply svc ses activities fs initial with
            | Raised e =>
                (Raised e,
                 drafted ses activities fs initial ++ [enhance_call ses initial])
            | Stopped =>
                (Stopped,
                 drafted ses activities fs initial ++ [enhance_call ses initial])
            | Done enhanced =>
                (Done tt,
                 drafted ses activities fs initial
                 ++ [enhance_call ses initial; StMarkdown enhanced;
                     download_button ses enhanced]
                 ++ footer)
            end
        end
    end.
Proof.
  intros Hst Hk Hsvc. unfold run. rewrite (main_started svc ses [] Hst).
  destruct (start_research_fetched svc ses [] activities results Hk Hsvc)
    as (research & Hsrc & Hrun).
  rewrite Hrun, write_reports_run, Hsrc. clear Hsrc.
  fold (researched ses activities).
  destruct (_format_sources_for_prompt _ _) as [fs|e]; [|done].
  cbv zeta. fold (drafting ses activities fs).
  fold (draft_reply svc ses activities fs).
  destruct (draft_reply svc ses activities fs) as [initial|e|]; [|done..].
  fold (drafted ses activities fs initial).
  fold (enhance_reply svc ses activities fs initial).
  destruct (enhance_reply svc ses activities fs initial) as [enhanced|e|];
    [|done..].
  by rewrite <- app_assoc.
Qed.

End CallFacts.

(** As [trace_forall], on the traces of the run shapes. *)
Ltac shape_forall :=
  unfold drafted, drafting, researched, download_button;
  trace_forall.

(** X8. [run_deep_research] always returns a result: whatever raises
    inside the [try] is caught. When the client cannot be built, only
    the error is shown and nothing is called. Otherwise the placeholder
    and the spinner are shown, exactly one call is made with the
    arguments given, and one line is shown per reported activity, in the
    order reported; then the error is shown, and the failure record
    returned, when the call raised or when the "data" entry of the answer
    is no dictionary; and the success record is returned, with ""
    and [] for what is absent, when that entry is a dictionary or
    absent. *)
Theorem run_deep_research_returns (svc : services) (ses : session)
    (query : str) (d tl mu : Z) (t : list event) :
  let params := ResearchParams d tl mu in
  let call := FirecrawlDeepResearch (firecrawl_api_key ses) query params in
  let failure e := Research false (Some (exn_message e)) (VStr []) (Some []) in
  let shown e := StError (lit "Deep research error: " ++ exn_message e) in
  let returns research added :=
    run_deep_research svc ses query d tl mu t = (Done research, t ++ added) in
  match firecrawl_app svc t (firecrawl_api_key ses) with
  | Raise e => returns (failure e) [shown e]
  | Ok _ =>
      let '(activities, answer) :=
        firecrawl svc (t ++ [StEmpty;
                             StSpinner (lit "Performing deep research via Firecrawl...")])
          (firecrawl_api_key ses) query params in
      let page :=
        [StEmpty; StSpinner (lit "Performing deep research via Firecrawl...");
         call] ++ map activity_info activities in
      network_calls page = [call]
      /\ match answer with
         | Raise e => returns (failure e) (page ++ [shown e])
         | Ok results =>
             match data results with
             | None => returns (Research true None (VStr []) (Some [])) page
             | Some (DataDict data) =>
                 returns (Research true None
                            (default (VStr []) (finalAnalysis data))
                            (default (Some []) (data_sources data))) page
             | Some (DataOther v) =>
                 let e := Exn (lit "AttributeError")
                            (lit "'" ++ type_name v
                             ++ lit "' object has no attribute 'get'") in
                 returns (failure e) (page ++ [shown e])
             end
         end
  end.
Proof.
  intros params call failure shown returns. subst returns. cbv beta.
  destruct (firecrawl_app svc t (firecrawl_api_key ses)) as [[]|e] eqn:Hc.
  2: { by rewrite (run_deep_research_client_failed svc ses _ _ _ _ t e Hc). }
  fold (before_research t).
  destruct (firecrawl svc (before_research t) _ _ _) as [activities answer] eqn:Hsvc.
  split.
  { rewrite network_calls_app, network_calls_infos. reflexivity. }
  rewrite (run_deep_research_called svc ses _ _ _ _ t activities answer Hc Hsvc).
  unfold before_research, research_events, data_of.
  destruct answer as [results|e]; cbn [mbind result_bind].
  - destruct (data results) as [[data|v]|];
      cbn [default from_option id get_method];
      rewrite <- ?app_assoc; reflexivity.
  - rewrite <- !app_assoc. reflexivity.
Qed.

Lemma run_deep_research_returns_witness :
  run_deep_research clientless ready (lit "AI safety news") 3 180 10 []
  = (Done (Research false (Some (lit "No API key provided")) (VStr []) (Some [])),
     [StError (lit "Deep research error: No API key provided")])
  /\ fst (run_deep_research answering_null ready (lit "AI safety news") 3 180 10 [])
     = Done (Research false
               (Some (lit "'NoneType' object has no attribute 'get'"))
               (VStr []) (Some [])).
Proof.
  split.
  - exact (run_deep_research_returns clientless ready (lit "AI safety news")
             3 180 10 []).
  - exact (f_equal fst
             (proj2 (run_deep_research_returns answering_null ready
                       (lit "AI safety news") 3 180 10 []))).
Defined.

(** X9. While the button is not pressed, or with an empty topic (the
    button is then disabled), a run shows the footer and nothing else:
    no key is checked and no service is called. *)
Theorem idle_run (svc : services) (ses : session) :
  start_pressed ses = false \/ research_topic ses = [] ->
  run svc ses = (Done tt, footer).
Proof.
  intros Hidle. unfold run. rewrite main_not_started; [done|].
  intros [Hp Ht]. destruct Hidle as [Hidle|Hidle]; congruence.
Qed.

Lemma idle_run_witness :
  run answering unpressed = (Done tt, footer).
Proof. apply (idle_run answering unpressed). left. reflexivity. Defined.

(** X10. The Groq key is checked first: a started run with an empty
    Groq key shows the Groq warning only, whatever the Firecrawl key; the
    Firecrawl warning is shown when the Groq key is present and the
    Firecrawl key is empty. *)
Theorem groq_key_checked_first (svc : services) (ses : session) :
  started ses ->
  (groq_api_key ses = [] ->
   run svc ses
   = (Stopped, [StWarning (lit "Please provide your Groq API key in the sidebar.")]))
  /\ (groq_api_key ses <> [] -> firecrawl_api_key ses = [] ->
      run svc ses
      = (Stopped,
         [StWarning (lit "Please provide your Firecrawl API key in the sidebar.")])).
Proof.
  intros Hst. unfold run. rewrite (main_started svc ses [] Hst). split.
  - intros Hg. by rewrite (start_research_no_groq_key svc ses [] Hg).
  - intros Hg Hf. by rewrite (start_research_no_firecrawl_key svc ses [] Hg Hf).
Qed.

Lemma groq_key_checked_first_witness :
  run answering without_keys
  = (Stopped, [StWarning (lit "Please provide your Groq API key in the sidebar.")]).
Proof.
  destruct (groq_key_checked_first answering without_keys) as [H _].
  - split; [reflexivity|discriminate].
  - apply H. reflexivity.
Defined.

Section FooterFacts.

Lemma footer_has_caption :
  Exists (fun ev => is_caption ev = true) footer.
Proof. unfold footer. apply Exists_cons_tl, Exists_cons_hd. reflexivity. Qed.

Lemma no_caption_in (t : list event) :
  Forall (fun ev => is_caption ev = false) t ->
  ~ Exists (fun ev => is_caption ev = true) t.
Proof.
  intros Hall Hex. apply Exists_exists in Hex as (ev & Hin & Hev).
  rewrite Forall_forall in Hall. specialize (Hall ev Hin). congruence.
Qed.

End FooterFacts.

(** X11. The footer is shown exactly by the runs that end normally: a
    run that stops or raises shows no caption. *)
Theorem footer_iff_done (svc : services) (ses : session) :
  fst (run svc ses) = Done tt
  <-> Exists (fun ev => is_caption ev = true) (snd (run svc ses)).
Proof.
  pose proof (run_has_shape svc ses) as Hs.
  destruct (run svc ses) as [o t]. cbn [fst snd] in *.
  destruct Hs; split; intros Hx; try done;
    try (rewrite ?app_assoc; apply Exists_app; right; apply footer_has_caption);
    try (by apply footer_has_caption);
    exfalso; revert Hx; apply no_caption_in; shape_forall.
Qed.

(** X12. The service calls of a run are, in this order, at most one
    research call, one Draft call and one Enhancer call: nothing is
    called twice and nothing is retried. *)
Theorem network_calls_in_order (svc : services) (ses : session) :
  exists fs initial,
    network_calls (snd (run svc ses))
    `prefix_of` [research_call ses; draft_call ses fs; enhance_call ses initial].
Proof.
  pose proof (run_has_shape svc ses) as Hs.
  destruct (run svc ses) as [o t]. cbn [fst snd] in *.
  destruct Hs as [ | | | e | activities e | activities results e
                  | activities results fs e | activities results fs initial e
                  | activities results fs initial enhanced ].
  - exists [], []. apply prefix_nil.
  - exists [], []. apply prefix_nil.
  - exists [], []. apply prefix_nil.
  - exists [], []. apply prefix_nil.
  - exists [], []. rewrite network_calls_app, network_calls_researched.
    by eexists.
  - exists [], []. rewrite network_calls_researched. by eexists.
  - exists fs, []. rewrite network_calls_app, network_calls_drafting.
    by eexists.
  - exists fs, initial. rewrite network_calls_app, network_calls_drafted.
    by exists [].
  - exists fs, initial. rewrite !network_calls_app, network_calls_drafted.
    by exists [].
Qed.



Section Outcomes.

Variable svc : services.
Variable ses : session.

(** The default limit never fails on records with string summaries. *)
Lemma format_default_ok (ss : list source) :
  (forall k s, (k < 12)%nat -> ss !! k = Some s -> has_str_summary s) ->
  exists fs, _format_sources_for_prompt (Some ss) default_limit = Ok fs.
Proof.
  intros Hty. destruct ss as [|s0 ss'] eqn:Hss; [by eexists|].
  destruct (format_take (s0 :: ss') default_limit 12) as (lines & Hfmt & _);
    [done|done|done|]. by eexists.
Qed.

Lemma draft_reply_answer (activities : list dict) (fs : str)
    (resp : completion) (c : choice) (cs : list choice) :
  groq svc (drafting ses activities fs) (groq_api_key ses)
    (chat_request ses system_prompt (user_prompt (research_topic ses) fs) 0.2%Q)
  = Ok resp ->
  choices resp = c :: cs ->
  draft_reply svc ses activities fs = Done (message_content (choice_message c)).
Proof. intros Hr Hc. by apply (groq_chat_reply svc ses _ _ _ _ resp c cs). Qed.

Lemma enhance_reply_answer (activities : list dict) (fs initial : str)
    (resp : completion) (c : choice) (cs : list choice) :
  groq svc (drafted ses activities fs initial) (groq_api_key ses)
    (chat_request ses system_prompt2 (user_prompt2 initial) 0.3%Q)
  = Ok resp ->
  choices resp = c :: cs ->
  enhance_reply svc ses activities fs initial
  = Done (message_content (choice_message c)).
Proof. intros Hr Hc. by apply (groq_chat_reply svc ses _ _ _ _ resp c cs). Qed.

Lemma draft_reply_raise (activities : list dict) (fs : str) (e : exn) :
  groq svc (drafting ses activities fs) (groq_api_key ses)
    (chat_request ses system_prompt (user_prompt (research_topic ses) fs) 0.2%Q)
  = Raise e ->
  draft_reply svc ses activities fs = Raised e.
Proof.
  intros Hr. unfold draft_reply.
  pose proof (groq_chat_cases svc ses system_prompt
                (user_prompt (research_topic ses) fs) 0.2%Q
                (drafting ses activities fs)) as H.
  by rewrite Hr in H.
Qed.

End Outcomes.

Section AnswerFacts.

Variable svc : services.
Variable ses : session.

(** The research step succeeds when the client is built, the call
    answers, and the "data" entry of the answer is a dictionary or
    absent. *)
Lemma research_answer_intro (t : list event) (activities : list dict)
    (results : research_response) :
  firecrawl_app svc t (firecrawl_api_key ses) = Ok tt ->
  firecrawl svc (before_research t) (firecrawl_api_key ses)
    (research_topic ses) main_params = (activities, Ok results) ->
  (forall v, data results <> Some (DataOther v)) ->
  research_answer svc ses t = (activities, Ok results).
Proof.
  intros Hc Hsvc Hdata. unfold research_answer, research_outcome.
  rewrite Hc, Hsvc. cbn [mbind result_bind]. unfold data_of.
  destruct (data results) as [[data|v]|]; [done| |done].
  by destruct (Hdata v).
Qed.

End AnswerFacts.

(** X14. A started run with both keys completes whenever the research
    client is built, the research call answers with a "data" entry that
    is a dictionary or absent, each of the first 12 fetched records has
    a string summary, and the completion service answers every request
    with at least one choice: the run ends normally and shows the
    download button. *)
Theorem run_completes (svc : services) (ses : session)
    (activities : list dict) (results : research_response) :
  started ses -> keys_present ses ->
  firecrawl_app svc [] (firecrawl_api_key ses) = Ok tt ->
  firecrawl svc
    [StEmpty; StSpinner (lit "Performing deep research via Firecrawl...")]
    (firecrawl_api_key ses) (research_topic ses) (ResearchParams 3 180 10)
    = (activities, Ok results) ->
  (forall v, data results <> Some (DataOther v)) ->
  (forall k s, (k < 12)%nat -> fetched_sources results !! k = Some s ->
               has_str_summary s) ->
  (forall h request, exists resp c cs,
     groq svc h (groq_api_key ses) request = Ok resp /\ choices resp = c :: cs) ->
  fst (run svc ses) = Done tt
  /\ exists enhanced, In (download_button ses enhanced) (snd (run svc ses)).
Proof.
  intros Hst Hk Hc Hraw Hdata Hty Hgroq.
  pose proof (research_answer_intro svc ses [] activities results Hc Hraw Hdata)
    as Hsvc.
  rewrite (run_fetched svc ses activities results Hst Hk Hsvc).
  destruct (format_default_ok _ Hty) as [fs ->].
  destruct (Hgroq (drafting ses activities fs)
              (chat_request ses system_prompt
                 (user_prompt (research_topic ses) fs) 0.2%Q))
    as (resp1 & c1 & cs1 & Hr1 & Hc1).
  rewrite (draft_reply_answer svc ses activities fs resp1 c1 cs1 Hr1 Hc1).
  set (initial := message_content (choice_message c1)).
  destruct (Hgroq (drafted ses activities fs initial)
              (chat_request ses system_prompt2 (user_prompt2 initial) 0.3%Q))
    as (resp2 & c2 & cs2 & Hr2 & Hc2).
  rewrite (enhance_reply_answer svc ses activities fs initial resp2 c2 cs2 Hr2 Hc2).
  split; [done|]. eexists. cbn [snd].
  apply in_or_app. right. right. right. left. reflexivity.
Qed.

Lemma run_completes_witness :
  fst (run answering ready) = Done tt
  /\ exists enhanced, In (download_button ready enhanced) (snd (run answering ready)).
Proof.
  apply (run_completes answering ready [an_activity]
           (ResearchResponse
              (Some (DataDict (ResearchData (Some (VStr (lit "Analysis")))
                                 (Some (Some [a_source]))))))).
  - split; [reflexivity|discriminate].
  - split; discriminate.
  - reflexivity.
  - reflexivity.
  - intros v. discriminate.
  - intros [|k] s _ Hs; simpl in Hs; [|done].
    injection Hs as <-. by exists (lit " A summary. ").
  - intros h request. by eexists _, _, _.
Defined.

(** X15. An exception of the Draft call is not caught: the run ends
    with that very exception, right after the call; no Enhancer call is
    made, and neither a report nor the footer is shown. *)
Theorem draft_failure_propagates (svc : services) (ses : session)
    (activities : list dict) (results : research_response) (fs : str) (e : exn) :
  started ses -> keys_present ses ->
  research_answer svc ses [] = (activities, Ok results) ->
  _format_sources_for_prompt (Some (fetched_sources results)) default_limit
    = Ok fs ->
  groq svc (drafting ses activities fs) (groq_api_key ses)
    (chat_request ses system_prompt (user_prompt (research_topic ses) fs) 0.2%Q)
    = Raise e ->
  run svc ses = (Raised e, drafting ses activities fs ++ [draft_call ses fs])
  /\ network_calls (snd (run svc ses)) = [research_call ses; draft_call ses fs]
  /\ Forall (fun ev => match ev with
                       | StMarkdown _ | StDownloadButton _ _ _ _ | StCaption _ => False
                       | _ => True
                       end) (snd (run svc ses)).
Proof.
  intros Hst Hk Hsvc Hfs Hr.
  rewrite (run_fetched svc ses activities results Hst Hk Hsvc), Hfs.
  rewrite (draft_reply_raise svc ses activities fs e Hr). cbn [snd].
  split; [done|]. split.
  - by rewrite network_calls_app, network_calls_drafting.
  - unfold drafting, researched, before_research, research_events, draft_events.
    repeat first
      [ apply Forall_nil_2 | apply Forall_app_2 | apply Forall_cons_2
      | apply activity_infos_forall; intros ? ]; done.
Qed.

Lemma draft_failure_propagates_witness :
  fst (run refusing ready) = Raised (Exn (lit "RateLimitError") (lit "rate limited"))
  /\ length (network_calls (snd (run refusing ready))) = 2%nat.
Proof.
  edestruct (draft_failure_propagates refusing ready [an_activity]) as (Hrun & Hcalls & _).
  - split; [reflexivity|discriminate].
  - split; discriminate.
  - reflexivity.
  - vm_compute. reflexivity.
  - reflexivity.
  - rewrite Hcalls. rewrite Hrun. split; reflexivity.
Defined.

(** X16. An answer without any choice makes [groq_chat] raise
    [IndexError], after the request was sent. *)
Theorem no_choice_raises (svc : services) (ses : session)
    (system user : str) (temperature : float) (t : list event)
    (resp : completion) :
  groq svc t (groq_api_key ses)
    (CompletionRequest (model ses) temperature
       [Message (lit "system") system; Message (lit "user") user]) = Ok resp ->
  choices resp = [] ->
  groq_chat svc ses system user temperature t
  = (Raised (Exn (lit "IndexError") (lit "list index out of range")),
     t ++ [GroqChatCompletion (groq_api_key ses)
             (CompletionRequest (model ses) temperature
                [Message (lit "system") system; Message (lit "user") user])]).
Proof.
  intros Hr Hc.
  pose proof (groq_chat_cases svc ses system user temperature t) as Hcase.
  pose proof (groq_chat_trace svc ses system user temperature t) as Htrace.
  unfold chat_request in *. rewrite Hr, Hc in Hcase.
  destruct (groq_chat svc ses system user temperature t) as [o t'].
  cbn [fst snd] in *. by subst.
Qed.

Lemma no_choice_raises_witness :
  fst (groq_chat speechless ready (lit "Be brief.") (lit "Hello") 0.2%Q [])
  = Raised (Exn (lit "IndexError") (lit "list index out of range")).
Proof.
  rewrite (no_choice_raises speechless ready (lit "Be brief.") (lit "Hello")
             0.2%Q [] (Completion [])); reflexivity.
Defined.

Lemma non_str_raises (ss : list source) (k : nat) (s : source) :
  (k < 12)%nat -> ss !! k = Some s -> ~ has_str_summary s ->
  exists e,
    _format_sources_for_prompt (Some ss) default_limit = Raise e
    /\ exn_class e = lit "AttributeError".
Proof.
  intros Hlt Hs Hno. destruct ss as [|s0 ss']; [done|].
  unfold _format_sources_for_prompt. rewrite slice_to_default.
  destruct (format_loop_raises (take 12 (s0 :: ss')) 1 [] k s) as (e & He & Hc);
    [by rewrite lookup_take_lt|done|].
  rewrite He. by exists e.
Qed.

(** X17. One fetched record, among the first 12, whose summary is not
    a string ends the run with [AttributeError] once the research call
    has answered: nothing is shown after it and no completion call is
    made. *)
Theorem bad_source_ends_run (svc : services) (ses : session)
    (activities : list dict) (results : research_response) (k : nat) (s : source) :
  started ses -> keys_present ses ->
  research_answer svc ses [] = (activities, Ok results) ->
  (k < 12)%nat ->
  fetched_sources results !! k = Some s ->
  ~ has_str_summary s ->
  exists e,
    run svc ses = (Raised e, researched ses activities)
    /\ exn_class e = lit "AttributeError"
    /\ network_calls (snd (run svc ses)) = [research_call ses].
Proof.
  intros Hst Hk Hsvc Hlt Hs Hno.
  rewrite (run_fetched svc ses activities results Hst Hk Hsvc).
  destruct (non_str_raises (fetched_sources results) k s Hlt Hs Hno)
    as (e & -> & Hc).
  exists e. cbn [snd]. repeat split; [done|]. apply network_calls_researched.
Qed.

Lemma bad_source_ends_run_witness :
  exists e,
    run answering_numbers ready = (Raised e, researched ready [an_activity])
    /\ exn_class e = lit "AttributeError"
    /\ network_calls (snd (run answering_numbers ready)) = [research_call ready].
Proof.
  apply (bad_source_ends_run answering_numbers ready [an_activity]
           (ResearchResponse (Some (DataDict (ResearchData None (Some (Some [a_numbered_source]))))))
           0 a_numbered_source).
  - split; [reflexivity|discriminate].
  - split; discriminate.
  - reflexivity.
  - lia.
  - reflexivity.
  - intros [sm Hsm]. vm_compute in Hsm. discriminate.
Defined.



Section EnhancerFacts.

Variable svc : services.
Variable ses : session.

Lemma enhance_reply_raise (activities : list dict) (fs initial : str) (e : exn) :
  groq svc (drafted ses activities fs initial) (groq_api_key ses)
    (chat_request ses system_prompt2 (user_prompt2 initial) 0.3%Q)
  = Raise e ->
  enhance_reply svc ses activities fs initial = Raised e.
Proof.
  intros Hr. unfold enhance_reply.
  pose proof (groq_chat_cases svc ses system_prompt2 (user_prompt2 initial)
                0.3%Q (drafted ses activities fs initial)) as H.
  by rewrite Hr in H.
Qed.

End EnhancerFacts.

(** X19. An exception of the Enhancer call is not caught either: the
    run ends with it right after the call. The draft stays on the page,
    and no download button and no footer are shown. *)
Theorem enhance_failure_keeps_draft (svc : services) (ses : session)
    (activities : list dict) (results : research_response) (fs : str)
    (resp : completion) (c : choice) (cs : list choice) (e : exn) :
  let initial := message_content (choice_message c) in
  started ses -> keys_present ses ->
  research_answer svc ses [] = (activities, Ok results) ->
  _format_sources_for_prompt (Some (fetched_sources results)) default_limit
    = Ok fs ->
  groq svc (drafting ses activities fs) (groq_api_key ses)
    (chat_request ses system_prompt (user_prompt (research_topic ses) fs) 0.2%Q)
    = Ok resp ->
  choices resp = c :: cs ->
  groq svc (drafted ses activities fs initial) (groq_api_key ses)
    (chat_request ses system_prompt2 (user_prompt2 initial) 0.3%Q)
    = Raise e ->
  run svc ses
  = (Raised e, drafted ses activities fs initial ++ [enhance_call ses initial])
  /\ In (StMarkdown initial) (snd (run svc ses))
  /\ Forall (fun ev => is_download ev = false /\ is_caption ev = false)
       (snd (run svc ses)).
Proof.
  intros initial Hst Hk Hsvc Hfs Hr1 Hc1 Hr2.
  rewrite (run_fetched svc ses activities results Hst Hk Hsvc), Hfs.
  rewrite (draft_reply_answer svc ses activities fs resp c cs Hr1 Hc1).
  fold initial.
  rewrite (enhance_reply_raise svc ses activities fs initial e Hr2). cbn [snd].
  split; [done|]. split.
  - unfold drafted, enhance_events. apply in_or_app. left. apply in_or_app.
    right. right. left. reflexivity.
  - unfold drafted, drafting, researched, before_research, research_events,
      draft_events, enhance_events.
    repeat first
      [ apply Forall_nil_2 | apply Forall_app_2 | apply Forall_cons_2
      | apply activity_infos_forall; intros ? ]; done.
Qed.

Lemma enhance_failure_keeps_draft_witness :
  fst (run tiring ready)
  = Raised (Exn (lit "APIConnectionError") (lit "Connection error."))
  /\ In (StMarkdown (lit "draft")) (snd (run tiring ready)).
Proof.
  destruct (enhance_failure_keeps_draft tiring ready [an_activity]
               (ResearchResponse (Some (DataDict (ResearchData None (Some (Some [a_source]))))))
               (entry_text 1 (source_title a_source) (source_url a_source)
                  (lit "A summary."))
               (Completion [Choice (CompletionMessage (lit "draft"))])
               (Choice (CompletionMessage (lit "draft"))) []
               (Exn (lit "APIConnectionError") (lit "Connection error.")))
    as (Hrun & Hin & _).
  - split; [reflexivity|discriminate].
  - split; discriminate.
  - reflexivity.
  - vm_compute. reflexivity.
  - reflexivity.
  - reflexivity.
  - reflexivity.
  - split; [by rewrite Hrun|exact Hin].
Defined.
